(** * dbacademy REST clients: a shallow embedding and its properties

    The development follows [src/dbacademy/rest/common.py] (the generic
    [ApiClient] and [DatabricksApiException]) and
    [src/dbacademy/clients/docebo/__init__.py] (the OAuth exchange of
    [DoceboRestClient]).

    Conventions of the embedding:
    - a Python [str] is a [string] holding its UTF-8 encoding; every string
      operation the code uses ([startswith], [endswith], [lstrip("/")],
      [rstrip("/")], slicing after a matched prefix, concatenation) commutes
      with that encoding, and [str.encode()] is the identity on it;
    - a Python [dict] with string keys is a [gmap string pyvalue];
    - a dictionary that the caller can still see after the call lives in a
      heap and is passed by reference;
    - raising is a result in [Raise]; the state reached so far is kept. *)

From Stdlib Require Import ZArith String Ascii List Bool Lia.
From stdpp Require Import base option gmap strings list fin_maps pretty.

Local Open Scope string_scope.
Local Open Scope Z_scope.

(** ** Python strings *)

Module PyStr.

(** [s.startswith(p)] *)
Definition startswith (p s : string) : bool := String.prefix p s.

(** [s.endswith(suf)]: [suf] is [s] itself or a suffix of its tail. *)
Fixpoint endswith (suf s : string) : bool :=
  String.eqb suf s ||
  match s with
  | EmptyString => false
  | String _ s' => endswith suf s'
  end.

(** [sub in s] *)
Fixpoint contains (sub s : string) : bool :=
  String.prefix sub s ||
  match s with
  | EmptyString => false
  | String _ s' => contains sub s'
  end.

(** [s.lstrip(c)] for a one-character set [c]. *)
Fixpoint lstrip (c : ascii) (s : string) : string :=
  match s with
  | EmptyString => EmptyString
  | String a s' => if Ascii.eqb a c then lstrip c s' else s
  end.

(** [s.rstrip(c)] for a one-character set [c]. *)
Fixpoint rstrip (c : ascii) (s : string) : string :=
  match s with
  | EmptyString => EmptyString
  | String a s' =>
      match rstrip c s' with
      | EmptyString => if Ascii.eqb a c then EmptyString else String a EmptyString
      | r => String a r
      end
  end.

(** [s[n:]] *)
Fixpoint slice_from (n : nat) (s : string) : string :=
  match n, s with
  | O, _ => s
  | S n', String _ s' => slice_from n' s'
  | S _, EmptyString => EmptyString
  end.

(** [s.lower()] on the ASCII letters (other bytes are kept). *)
Definition lower_ascii (a : ascii) : ascii :=
  let n := nat_of_ascii a in
  if (Nat.leb 65 n && Nat.leb n 90)%bool then ascii_of_nat (n + 32) else a.

Fixpoint lower (s : string) : string :=
  match s with
  | EmptyString => EmptyString
  | String a s' => String (lower_ascii a) (lower s')
  end.

(** Number of trailing occurrences of [c]. *)
Definition trailing (c : ascii) (s : string) : nat :=
  (String.length s - String.length (rstrip c s))%nat.

End PyStr.

(** ** [base64.standard_b64encode] (RFC 4648, section 4) *)

Module Base64.

Definition alphabet : string :=
  "ABCDEFGHIJKLMNOPQRSTUVWXYZabcdefghijklmnopqrstuvwxyz0123456789+/".

Definition digit (n : N) : ascii :=
  match String.get (N.to_nat n) alphabet with
  | Some a => a
  | None => "="%char
  end.

Definition pad : ascii := "="%char.

(** Three input bytes give four digits; a final group of one or two bytes
    is padded with [=]. *)
Fixpoint encode_bytes (l : list N) : string :=
  match l with
  | [] => EmptyString
  | [a] =>
      String (digit (N.shiftr a 2))
        (String (digit (N.shiftl (N.land a 3) 4))
           (String pad (String pad EmptyString)))
  | [a; b] =>
      String (digit (N.shiftr a 2))
        (String (digit (N.lor (N.shiftl (N.land a 3) 4) (N.shiftr b 4)))
           (String (digit (N.shiftl (N.land b 15) 2))
              (String pad EmptyString)))
  | a :: b :: c :: rest =>
      String (digit (N.shiftr a 2))
        (String (digit (N.lor (N.shiftl (N.land a 3) 4) (N.shiftr b 4)))
           (String (digit (N.lor (N.shiftl (N.land b 15) 2) (N.shiftr c 6)))
              (String (digit (N.land c 63)) (encode_bytes rest))))
  end.

Fixpoint bytes_of (s : string) : list N :=
  match s with
  | EmptyString => []
  | String a s' => N_of_ascii a :: bytes_of s'
  end.

(** [base64.standard_b64encode(s.encode()).decode()] *)
Definition standard_b64encode (s : string) : string := encode_bytes (bytes_of s).

End Base64.

(** ** Python values

    [PyFloat m e] is the finite float [m * 2^e]. *)

Local Set Warnings "-register-all".

Inductive pyvalue : Type :=
| PyNone
| PyBool (b : bool)
| PyInt (z : Z)
| PyFloat (m e : Z)
| PyStr (s : string)
| PyList (l : list pyvalue)
| PyDict (d : gmap string pyvalue).

Abbreviation dict := (gmap string pyvalue).

(** Truth value of an object, as [if x:] tests it. *)
Definition py_truthy (v : pyvalue) : bool :=
  match v with
  | PyNone => false
  | PyBool b => b
  | PyInt z => negb (z =? 0)
  | PyFloat m _ => negb (m =? 0)
  | PyStr s => negb (String.eqb s EmptyString)
  | PyList l => negb (Nat.eqb (length l) 0)
  | PyDict d => negb (Nat.eqb (size d) 0)
  end.

(** [str(b)] for a [bool]. *)
Definition str_of_bool (b : bool) : string := if b then "True" else "False".

(** Double quote, for messages that contain one. *)
Definition dquote : string := String (ascii_of_nat 34) EmptyString.

(** [type(v).__name__] *)
Definition type_name (v : pyvalue) : string :=
  match v with
  | PyNone => "NoneType"
  | PyBool _ => "bool"
  | PyInt _ => "int"
  | PyFloat _ _ => "float"
  | PyStr _ => "str"
  | PyList _ => "list"
  | PyDict _ => "dict"
  end.

(** The error of calling [v.get] on a value that is not a dictionary. *)
Definition no_attribute_get (v : pyvalue) : string :=
  "'" +:+ type_name v +:+ "' object has no attribute 'get'".

(** [d.get(k, dflt)] *)
Definition dict_get (d : dict) (k : string) (dflt : pyvalue) : pyvalue :=
  default dflt (d !! k).

(** ** The library functions the code calls

    [json], [pprint], [int] and [repr] belong to the Python runtime; the
    code is verified for every behaviour they may have.  A result of [None]
    stands for the [ValueError] the function raises. *)

Class PyRuntime := {
  json_loads : string -> option pyvalue;
  json_dumps : dict -> string;
  pformat : pyvalue -> string;
  py_int : string -> option Z;
  py_repr : string -> string;
  py_str : pyvalue -> string;
}.

(** ** HTTP data *)

Module PreparedRequest.
Record t := mk { method : string; path_url : string }.
End PreparedRequest.

Module Response.
Record t := mk {
  status_code : Z;
  reason : string;
  url : string;
  text : string;
  content : string;
  request : PreparedRequest.t;
}.
End Response.

(** What [session.request] and [requests.post] are called with: [params]
    is the query, [data] a body already serialised, [form] a dictionary
    sent form-encoded. *)
Module Request.
Record t := mk {
  method : string;
  url : string;
  params : option dict;
  data : option string;
  form : option dict;
  headers : gmap string string;
  timeout : option (Z * Z);
}.
End Request.

(** [requests.HTTPError(msg, response=response)]: the request is taken from
    the response. *)
Module HTTPError.
Record t := mk {
  message : string;
  response : Response.t;
  request : PreparedRequest.t;
}.
Definition new (msg : string) (response : Response.t) : t :=
  mk msg response (Response.request response).
End HTTPError.

Module DatabricksApiException.
Record t := mk {
  cause : option HTTPError.t;
  body : pyvalue;
  message : pyvalue;
  error_code : pyvalue;
  method : pyvalue;
  endpoint : pyvalue;
  http_code : pyvalue;
  request : option PreparedRequest.t;
  response : option Response.t;
  args : list pyvalue;
}.
End DatabricksApiException.

Inductive exn : Type :=
| ValueError (msg : string)
| JSONDecodeError
| ConnectionError (msg : string)
| AttributeError (msg : string)
| KeyError (key : string)
| AssertionError (msg : string)
| HTTPErrorExn (e : HTTPError.t)
| DatabricksApiExceptionExn (e : DatabricksApiException.t).

Inductive result (A : Type) : Type :=
| Return (a : A)
| Raise (e : exn).
Arguments Return {A} a.
Arguments Raise {A} e.

Definition result_bind {A B} (r : result A) (k : A -> result B) : result B :=
  match r with
  | Return a => k a
  | Raise e => Raise e
  end.

(** ** [DatabricksApiException.__init__] *)

Section Exception.
Context `{PyRuntime}.

Definition DatabricksApiException_init
    (message http_code : pyvalue) (http_exception : option HTTPError.t)
    : result DatabricksApiException.t :=
  match http_exception with
  | Some e =>
      let text := Response.text (HTTPError.response e) in
      result_bind
        (match json_loads text with
         | Some (PyDict d) =>
             Return (PyDict d,
                     dict_get d "message" (dict_get d "error" (PyStr text)),
                     dict_get d "error_code" (PyInt (-1)))
         | Some v => Raise (AttributeError (no_attribute_get v))
         | None => Return (PyStr text, PyStr text, PyInt (-1))
         end)
        (fun '(body, msg, error_code) =>
           let method := PyStr (PreparedRequest.method (HTTPError.request e)) in
           let endpoint := PyStr (PreparedRequest.path_url (HTTPError.request e)) in
           let http_code := PyInt (Response.status_code (HTTPError.response e)) in
           let msg := if py_truthy message then message else msg in
           Return (DatabricksApiException.mk
                     (Some e) body msg error_code method endpoint http_code
                     (Some (HTTPError.request e)) (Some (HTTPError.response e))
                     [method; endpoint; http_code; error_code; msg]))
  | None =>
      if py_truthy message then
        Return (DatabricksApiException.mk
                  None message message (PyInt (-1)) PyNone PyNone http_code
                  None None
                  [PyNone; PyNone; http_code; PyInt (-1); message])
      else
        Raise (AttributeError
                 "'DatabricksApiException' object has no attribute 'message'")
  end.

End Exception.

(** What an exception built from the HTTP error [e] carries for
    diagnostics: the method, the endpoint path and the status code. *)
Definition carries (exc : DatabricksApiException.t) (e : HTTPError.t) : Prop :=
  DatabricksApiException.method exc = PyStr (PreparedRequest.method (HTTPError.request e))
  ∧ DatabricksApiException.endpoint exc
    = PyStr (PreparedRequest.path_url (HTTPError.request e))
  ∧ DatabricksApiException.http_code exc
    = PyInt (Response.status_code (HTTPError.response e)).

(** ** The client object *)

Module Session.
Record t := mk {
  headers : gmap string string;
  mounts : list string;
  backoff_factor : Z;
}.
End Session.

Module ApiClient.
Record t := mk {
  url : string;
  user : option string;
  throttle_seconds : Z;
  read_timeout : Z;
  connect_timeout : Z;
  _last_request_timestamp : Z;
  verbose : bool;
  session : Session.t;
}.

Definition set_last_request_timestamp (ts : Z) (c : t) : t :=
  mk (url c) (user c) (throttle_seconds c) (read_timeout c) (connect_timeout c)
     ts (verbose c) (session c).
End ApiClient.

(** [if s:] for an optional string argument: given and not empty. *)
Definition str_truthy (s : option string) : bool :=
  match s with
  | Some s => negb (String.eqb s EmptyString)
  | None => false
  end.

(** Lines 80-81: a relative [url] is joined to the parent client's. *)
Definition joined_url (client : option ApiClient.t) (url : string) : string :=
  match client with
  | Some c =>
      if negb (PyStr.contains "://" url)
      then PyStr.lstrip "/" (ApiClient.url c) +:+ "/" +:+ PyStr.rstrip "/" url
      else url
  | None => url
  end.

(** Lines 83-94: the authorization header the arguments give. *)
Definition credentials_header
    (token user password authorization_header : option string)
    (client : option ApiClient.t) : result string :=
  if str_truthy authorization_header then
    Return (default EmptyString authorization_header)
  else
    match token with
    | Some token => Return ("Bearer " +:+ token)
    | None =>
        match user, password with
        | Some user, Some password =>
            Return ("Basic " +:+ Base64.standard_b64encode (user +:+ ":" +:+ password))
        | _, _ =>
            match client with
            | Some c =>
                match Session.headers (ApiClient.session c) !! "Authorization" with
                | Some h => Return h
                | None => Raise (KeyError "Authorization")
                end
            | None =>
                Raise (ValueError
                         "Must specify one of token, password, or authorization_header")
            end
        end
    end.

(** Lines 96-97. *)
Definition with_trailing_slash (url : string) : string :=
  if negb (PyStr.endswith "/" url) then url +:+ "/" else url.

(** [ApiClient.__init__].  The warning printed for a positive
    [throttle_seconds] is output only and is left out. *)
Definition ApiClient_init
    (url : string) (token user password authorization_header : option string)
    (client : option ApiClient.t) (throttle_seconds : Z) (verbose : bool)
    : result ApiClient.t :=
  let url := joined_url client url in
  result_bind
    (credentials_header token user password authorization_header client)
    (fun authorization_header =>
       let url := with_trailing_slash url in
       let connect_timeout := 5 in
       Return (ApiClient.mk url user throttle_seconds 300 connect_timeout 0 verbose
                 (Session.mk
                    (<["Authorization" := authorization_header]>
                       (<["Content-Type" := "text/json"]> ∅))
                    ["http://"; "https://"]
                    connect_timeout))).

(** [client.session.headers["Authorization"]], when the key is there. *)
Definition authorization (c : ApiClient.t) : option string :=
  Session.headers (ApiClient.session c) !! "Authorization".

(** ** State, network and the monad of the calls *)

Definition loc := positive.

Record State := mkState {
  this : ApiClient.t;
  heap : gmap loc dict;
  clock : Z;
  sent : list Request.t;
}.

(** The network as the client sees it: whether the host of a base URL
    resolves ([gethostbyname(urlparse(url).hostname)] does not raise
    [gaierror]), and the response the transport delivers for a request.
    The transport is taken to deliver a response: the errors of the HTTP
    library itself (time-outs, exhausted retries) would pass through [api]
    unchanged and are not modelled. *)
Class Network := {
  hostname_resolves : string -> bool;
  http_send : Request.t -> Response.t;
}.

Definition M (S A : Type) : Type := S -> result A * S.

Definition mret {S A} (a : A) : M S A := fun st => (Return a, st).

Definition mbind {S A B} (m : M S A) (k : A -> M S B) : M S B :=
  fun st =>
    match m st with
    | (Return a, st') => k a st'
    | (Raise e, st') => (Raise e, st')
    end.

Definition raise {S A} (e : exn) : M S A := fun st => (Raise e, st).

Definition lift {S A} (r : result A) : M S A := fun st => (r, st).

Notation "'let!' x ':=' c1 'in' c2" := (mbind c1 (fun x => c2))
  (at level 10, x pattern, c1 at level 100, c2 at level 200).

(** Dictionaries on the heap. *)
Definition heap_dict (h : gmap loc dict) (l : loc) : dict := default ∅ (h !! l).
Arguments heap_dict : simpl never.

Definition new_dict (d : dict) : M State loc :=
  fun st =>
    let l := fresh (dom (heap st)) in
    (Return l, mkState (this st) (<[l := d]> (heap st)) (clock st) (sent st)).

(** [d.copy()] *)
Definition dict_copy (l : loc) : M State loc :=
  fun st => new_dict (heap_dict (heap st) l) st.

(** [d.update(other)]: the entries of [other] win. *)
Definition dict_update (l : loc) (other : dict) : M State unit :=
  fun st =>
    (Return tt,
     mkState (this st) (<[l := other ∪ heap_dict (heap st) l]> (heap st))
       (clock st) (sent st)).

Definition dict_read (l : loc) : M State dict :=
  fun st => (Return (heap_dict (heap st) l), st).

Definition get_this : M State ApiClient.t := fun st => (Return (this st), st).

(** ** [ApiClient.api] and its helpers *)

(** The [_expected] argument: [None], a [str], an [int], a container of
    [int]s, or an object of another type (named by [ty]). *)
Inductive HttpStatusCodes : Type :=
| ExpNone
| ExpStr (s : string)
| ExpInt (code : Z)
| ExpContainer (codes : list Z)
| ExpOther (ty : string).

(** The [_return_type] argument. *)
Inductive HttpReturnType : Type :=
| RT_Response
| RT_str
| RT_bytes
| RT_None
| RT_dict
| RT_other.

(** What [api] returns. *)
Inductive ApiResult : Type :=
| ResNone
| ResResponse (r : Response.t)
| ResText (s : string)
| ResBytes (b : string)
| ResJson (v : pyvalue).

Definition newline : string := String (ascii_of_nat 10) EmptyString.

Definition is_2xx (status_code : Z) : bool :=
  (200 <=? status_code) && (status_code <? 300).

Definition is_4xx (status_code : Z) : bool :=
  (400 <=? status_code) && (status_code <? 500).

(** [str(v).lower() if isinstance(v, bool) else v] *)
Definition query_value (v : pyvalue) : pyvalue :=
  match v with
  | PyBool b => PyStr (PyStr.lower (str_of_bool b))
  | _ => v
  end.

Definition is_query_method (m : string) : bool :=
  String.eqb m "GET" || String.eqb m "HEAD" || String.eqb m "OPTIONS".

Section Api.
Context `{PyRuntime} `{Network}.

Definition error_type (status_code : Z) : string :=
  if (100 <=? status_code) && (status_code <? 200) then "Informational"
  else if (300 <=? status_code) && (status_code <? 400) then "Redirection"
  else if (400 <=? status_code) && (status_code <? 500) then "Client Error"
  else if (500 <=? status_code) && (status_code <? 600) then "Server Error"
  else "Unknown Error".

Definition http_error_msg (response : Response.t) : string :=
  let body :=
    match json_loads (Response.text response) with
    | Some v => pformat v
    | None => Response.text response
    end in
  pretty (Response.status_code response) +:+ " "
    +:+ error_type (Response.status_code response) +:+ ": "
    +:+ Response.reason response +:+ " for url: " +:+ Response.url response
    +:+ newline +:+ " Response from server: " +:+ newline +:+ " " +:+ body.

(** The tuple [expected] is normalised to. *)
Definition expected_codes (expected : HttpStatusCodes) : result (list Z) :=
  match expected with
  | ExpNone => Return []
  | ExpStr s =>
      match py_int s with
      | Some n => Return [n]
      | None =>
          Raise (ValueError ("invalid literal for int() with base 10: " +:+ py_repr s))
      end
  | ExpInt n => Return [n]
  | ExpContainer codes => Return codes
  | ExpOther ty =>
      Raise (ValueError
               ("The parameter was expected to be of type str, int, tuple, list or set, found "
                  +:+ ty))
  end.

Definition _raise_for_status (response : Response.t) (expected : HttpStatusCodes)
    : result unit :=
  let status_code := Response.status_code response in
  if is_2xx status_code then Return tt
  else
    result_bind (expected_codes expected) (fun expected =>
      if existsb (Z.eqb status_code) expected then Return tt
      else
        let e := HTTPError.new (http_error_msg response) response in
        if is_4xx status_code then
          result_bind (DatabricksApiException_init PyNone PyNone (Some e))
            (fun e => Raise (DatabricksApiExceptionExn e))
        else Raise (HTTPErrorExn e)).

Definition _verify_hostname : M State unit :=
  let! self := get_this in
  if hostname_resolves (ApiClient.url self) then mret tt
  else raise (ConnectionError "DNS lookup for hostname failed").

(** Time is counted in whole ticks; [time.sleep] returns exactly when the
    requested delay is over. *)
Definition _throttle_calls : M State unit :=
  fun st =>
    let self := this st in
    if ApiClient.throttle_seconds self <=? 0 then (Return tt, st)
    else
      let now := clock st in
      let elapsed := now - ApiClient._last_request_timestamp self in
      let sleep_seconds := ApiClient.throttle_seconds self - elapsed in
      let now' := if 0 <? sleep_seconds then now + sleep_seconds else now in
      (Return tt,
       mkState (ApiClient.set_last_request_timestamp now' self)
         (heap st) now' (sent st)).

(** [self.session.request(...)]: the request is recorded, the transport
    answers. *)
Definition session_request (r : Request.t) : M State Response.t :=
  fun st =>
    (Return (http_send r),
     mkState (this st) (heap st) (clock st) (sent st ++ [r])%list).

(** Lines 167-171: the request URL, or the usage error. *)
Definition resolve_url (base _endpoint_path : string) : result string :=
  result_bind
    (if PyStr.startswith base _endpoint_path then
       Return (PyStr.slice_from (String.length base) _endpoint_path)
     else if PyStr.startswith "http" _endpoint_path then
       Raise (ValueError
                ("endpoint_path must be relative url, not "
                   +:+ py_repr _endpoint_path +:+ "."))
     else Return _endpoint_path)
    (fun _endpoint_path => Return (base +:+ PyStr.lstrip "/" _endpoint_path)).

(** Lines 181-198: what is returned once the status has been accepted. *)
Definition deserialize (response : Response.t) (_return_type : HttpReturnType)
    : ApiResult :=
  match _return_type with
  | RT_Response => ResResponse response
  | RT_str => ResText (Response.text response)
  | RT_bytes => ResBytes (Response.content response)
  | RT_None => ResNone
  | RT_dict =>
      match json_loads (Response.text response) with
      | Some v => ResJson v
      | None =>
          ResJson (PyDict (<["_status" := PyStr (Response.text response)]>
                             (<["_response" := PyStr (Response.text response)]> ∅)))
      end
  | RT_other => ResNone
  end.

Definition api (_http_method _endpoint_path : string) (_data : option loc)
    (_expected : HttpStatusCodes) (_return_type : HttpReturnType) (data : dict)
    : M State ApiResult :=
  let! _data :=
    match _data with
    | None => new_dict ∅
    | Some l => mret l
    end in
  let! _data :=
    if py_truthy (PyDict data) then
      let! copy := dict_copy _data in
      let! _ := dict_update copy data in
      mret copy
    else mret _data in
  let! _ := _verify_hostname in
  let! _ := _throttle_calls in
  let! self := get_this in
  let! url := lift (resolve_url (ApiClient.url self) _endpoint_path) in
  let timeout := (ApiClient.connect_timeout self, ApiClient.read_timeout self) in
  let headers := Session.headers (ApiClient.session self) in
  let! payload := dict_read _data in
  let! response :=
    if is_query_method _http_method then
      session_request
        (Request.mk _http_method url (Some (query_value <$> payload)) None None
           headers (Some timeout))
    else
      session_request
        (Request.mk _http_method url None (Some (json_dumps payload)) None
           headers (Some timeout)) in
  let! _ := lift (_raise_for_status response _expected) in
  if negb (is_2xx (Response.status_code response)) then mret ResNone
  else mret (deserialize response _return_type).

Definition api_raw (_http_method _endpoint_path : string) (_data : option loc)
    (_expected : HttpStatusCodes) : M State ApiResult :=
  api _http_method _endpoint_path _data _expected RT_Response ∅.

Definition api_simple (_http_method _endpoint_path : string)
    (_expected : HttpStatusCodes) (data : dict) : M State ApiResult :=
  let! d := new_dict data in
  api _http_method _endpoint_path (Some d) _expected RT_dict ∅.

Definition simple_get (url : string) (expected : HttpStatusCodes) (data : dict)
    : M State ApiResult :=
  let! d := new_dict data in
  api "GET" url (Some d) expected RT_dict ∅.

End Api.

(** ** [DoceboRestClient] *)

Section Docebo.
Context `{PyRuntime} `{Network}.

(** [requests.post(url, data=payload, headers=...)] *)
Definition requests_post (url : string) (data : dict) (headers : gmap string string)
    : M (list Request.t) Response.t :=
  fun log =>
    let r := Request.mk "POST" url None None (Some data) headers None in
    (Return (http_send r), (log ++ [r])%list).

(** The value of an optional string argument. *)
Definition of_optional (s : option string) : pyvalue :=
  match s with
  | Some s => PyStr s
  | None => PyNone
  end.

(** [f"{v}"] *)
Definition format_value (v : pyvalue) : string :=
  match v with
  | PyStr s => s
  | PyNone => "None"
  | PyBool b => str_of_bool b
  | PyInt z => pretty z
  | _ => py_str v
  end.

Definition authenticate_payload
    (consumer_key consumer_secret username : string) (password : option string)
    : dict :=
  <["grant_type" := PyStr "password"]>
    (<["client_id" := PyStr consumer_key]>
       (<["client_secret" := PyStr consumer_secret]>
          (<["username" := PyStr username]>
             (<["password" := of_optional password]> ∅)))).

(** The request of the token exchange. *)
Definition authenticate_request
    (endpoint consumer_key consumer_secret username : string)
    (password : option string) : Request.t :=
  Request.mk "POST" (endpoint +:+ "/oauth2/token") None None
    (Some (authenticate_payload consumer_key consumer_secret username password))
    {["Content-Type" := "application/x-www-form-urlencoded"]} None.

Definition authenticate
    (endpoint consumer_key consumer_secret username : string)
    (password : option string) : M (list Request.t) pyvalue :=
  let payload := authenticate_payload consumer_key consumer_secret username password in
  let url := endpoint +:+ "/oauth2/token" in
  let! response :=
    requests_post url payload
      {["Content-Type" := "application/x-www-form-urlencoded"]} in
  if negb (Response.status_code response =? 200) then
    raise (AssertionError
             ("Expected the HTTP status code 200, found "
                +:+ pretty (Response.status_code response) +:+ ": "
                +:+ Response.text response))
  else
    match json_loads (Response.text response) with
    | None => raise JSONDecodeError
    | Some (PyDict d) => mret (dict_get d "access_token" PyNone)
    | Some v => raise (AttributeError (no_attribute_get v))
    end.

Definition must_be_specified (name : string) : exn :=
  AssertionError
    ("The parameter " +:+ dquote +:+ name +:+ dquote +:+ " must be specified").

(** [DoceboRestClient.__init__]: the four sub-clients it then attaches are
    handles on the client itself and carry no state of their own. *)
Definition DoceboRestClient_init
    (endpoint : option string) (throttle_seconds : Z)
    (username password consumer_key consumer_secret : option string)
    : M (list Request.t) ApiClient.t :=
  match endpoint with
  | None => raise (must_be_specified "endpoint")
  | Some endpoint =>
  match username with
  | None => raise (must_be_specified "username")
  | Some username =>
  match consumer_key with
  | None => raise (must_be_specified "consumer_key")
  | Some consumer_key =>
  match consumer_secret with
  | None => raise (must_be_specified "consumer_secret")
  | Some consumer_secret =>
      let! access_token :=
        authenticate endpoint consumer_key consumer_secret username password in
      lift (ApiClient_init endpoint None None None
              (Some ("Bearer " +:+ format_value access_token))
              None throttle_seconds false)
  end end end end.

End Docebo.

(** ** Concrete inputs

    A runtime, some networks and a state on which the definitions are
    evaluated.  [json_loads] of [sample_runtime] answers as CPython does on
    the bodies used below: two objects, the empty array, the empty object,
    and text that is not JSON; its printers are stand-ins. *)

(** The text [{"message": "Forbidden"}]. *)
Definition forbidden_object_body : string :=
  "{" +:+ dquote +:+ "message" +:+ dquote +:+ ": "
      +:+ dquote +:+ "Forbidden" +:+ dquote +:+ "}".

(** The text [{"access_token": "abc"}]. *)
Definition token_body : string :=
  "{" +:+ dquote +:+ "access_token" +:+ dquote +:+ ": "
      +:+ dquote +:+ "abc" +:+ dquote +:+ "}".

Definition sample_runtime : PyRuntime := {|
  json_loads s :=
    if String.eqb s forbidden_object_body then
      Some (PyDict {["message" := PyStr "Forbidden"]})
    else if String.eqb s token_body then
      Some (PyDict {["access_token" := PyStr "abc"]})
    else if String.eqb s "[]" then Some (PyList [])
    else if String.eqb s "{}" then Some (PyDict ∅)
    else None;
  json_dumps d := if Nat.eqb (size d) 0 then "{}" else "{...}";
  pformat v := "<json>";
  py_int s := if String.eqb s "404" then Some 404 else None;
  py_repr s := "'" +:+ s +:+ "'";
  py_str v := "<" +:+ type_name v +:+ ">";
|}.

Definition sample_prepared : PreparedRequest.t :=
  PreparedRequest.mk "GET" "/api/2.0/clusters/get".

Definition sample_response (status_code : Z) (reason body : string) : Response.t :=
  Response.mk status_code reason "https://example.com/api/2.0/clusters/get"
    body body sample_prepared.

(** A network whose host resolves and whose server answers every request
    with [response]. *)
Definition constant_network (response : Response.t) : Network := {|
  hostname_resolves _ := true;
  http_send _ := response;
|}.

(** A network on which the DNS lookup fails. *)
Definition offline_network : Network := {|
  hostname_resolves _ := false;
  http_send _ := sample_response 200 "OK" "{}";
|}.

Definition ok_network : Network :=
  constant_network (sample_response 200 "OK" "{}").

Definition not_found_network : Network :=
  constant_network (sample_response 404 "Not Found" forbidden_object_body).

Definition token_network : Network :=
  constant_network (sample_response 200 "OK" token_body).

Definition unauthorized_network : Network :=
  constant_network (sample_response 401 "Unauthorized" "denied").

Definition sample_client : ApiClient.t :=
  ApiClient.mk "https://example.com/api/" None 0 300 5 0 false
    (Session.mk
       (<["Authorization" := "Bearer tok"]> (<["Content-Type" := "text/json"]> ∅))
       ["http://"; "https://"] 5).

(** A state in which the caller holds one dictionary, [{"a": 1, "b": True}],
    at location [1]. *)
Definition sample_state : State :=
  mkState sample_client
    {[ 1%positive := <["a" := PyInt 1]> (<["b" := PyBool true]> ∅) ]} 0 [].

(** ** The stages of [api], named

    These definitions name what [api] computes on its way, so that the
    properties below can speak about the payload and the request. *)

(** Lines 160-164 on the heap: the location of the payload dictionary and
    the heap after [_data = {}], [_data.copy()] and [_data.update(data)]. *)
Definition prepare_payload (h : gmap loc dict) (_data : option loc) (data : dict)
    : loc * gmap loc dict :=
  let '(l, h) :=
    match _data with
    | None => (fresh (dom h), <[fresh (dom h) := ∅]> h)
    | Some l => (l, h)
    end in
  if py_truthy (PyDict data) then
    (fresh (dom h), <[fresh (dom h) := data ∪ heap_dict h l]> h)
  else (l, h).

(** The payload as the caller describes it: the keyword arguments laid
    over the entries of [_data]. *)
Definition merged_payload (h : gmap loc dict) (_data : option loc) (data : dict) : dict :=
  data ∪ match _data with
         | Some l => heap_dict h l
         | None => ∅
         end.

(** Lines 173-178: the request [api] issues for a payload. *)
Definition api_request (self : ApiClient.t) (_http_method url : string) (payload : dict)
    `{PyRuntime} : Request.t :=
  let timeout := (ApiClient.connect_timeout self, ApiClient.read_timeout self) in
  let headers := Session.headers (ApiClient.session self) in
  if is_query_method _http_method then
    Request.mk _http_method url (Some (query_value <$> payload)) None None
      headers (Some timeout)
  else
    Request.mk _http_method url None (Some (json_dumps payload)) None
      headers (Some timeout).

(** ** The convenience methods and the factory of the Docebo client *)

Section Convenience.
Context `{PyRuntime} `{Network}.

(** [simple_post], [simple_put], [simple_delete], [simple_patch]: like
    [simple_get], the keyword arguments are handed to [api] as [_data]. *)
Definition simple_post (url : string) (expected : HttpStatusCodes) (data : dict)
    : M State ApiResult :=
  let! d := new_dict data in
  api "POST" url (Some d) expected RT_dict ∅.

Definition simple_put (url : string) (expected : HttpStatusCodes) (data : dict)
    : M State ApiResult :=
  let! d := new_dict data in
  api "PUT" url (Some d) expected RT_dict ∅.

Definition simple_delete (url : string) (expected : HttpStatusCodes) (data : dict)
    : M State ApiResult :=
  let! d := new_dict data in
  api "DELETE" url (Some d) expected RT_dict ∅.

Definition simple_patch (url : string) (expected : HttpStatusCodes) (data : dict)
    : M State ApiResult :=
  let! d := new_dict data in
  api "PATCH" url (Some d) expected RT_dict ∅.

(** [a or b] for optional strings. *)
Definition or_else (a b : option string) : option string :=
  if str_truthy a then a else b.

(** [DoceboRestClient.from_environ], with [os.environ] as a map. *)
Definition from_environ (environ : gmap string string)
    (endpoint username password consumer_key consumer_secret : option string)
    : M (list Request.t) ApiClient.t :=
  DoceboRestClient_init
    (or_else endpoint (environ !! "DOCEBO_ENDPOINT")) 0
    (or_else username (environ !! "DOCEBO_USERNAME"))
    (or_else password (environ !! "DOCEBO_PASSWORD"))
    (or_else consumer_key (environ !! "DOCEBO_CONSUMER_KEY"))
    (or_else consumer_secret (environ !! "DOCEBO_CONSUMER_SECRET")).

End Convenience.

(** A request that carries [data] as a JSON body and nothing in the query. *)
Definition sends_json_body (m : string) (data : dict) (request : Request.t)
    `{PyRuntime} : Prop :=
  Request.method request = m
  ∧ Request.params request = None
  ∧ Request.data request = Some (json_dumps data).

(** The default of [expected] in the [simple_] methods. *)
Definition default_expected : HttpStatusCodes := ExpInt 200.

(** A network whose server answers [201 Created] with a JSON object. *)
Definition created_network : Network :=
  constant_network (sample_response 201 "Created" forbidden_object_body).

(** A network whose server answers [500] with text that is not JSON. *)
Definition failing_network : Network :=
  constant_network (sample_response 500 "Internal Server Error" "oops").

(** A network whose server answers [200] with text that is not JSON. *)
Definition text_network : Network :=
  constant_network (sample_response 200 "OK" "pong").

(** The sample state on a client throttled to one request per 10 ticks,
    at time 3 after a request at time 0. *)
Definition throttled_state : State :=
  mkState
    (ApiClient.mk "https://example.com/api/" None 10 300 5 0 false
       (ApiClient.session sample_client))
    (heap sample_state) 3 [].

(** * Properties *)

(** ** Strings *)

Section StringFacts.

Lemma app_cons (a : ascii) (s t : string) : String a s +:+ t = String a (s +:+ t).
Proof. reflexivity. Qed.

Lemma app_length (s t : string) :
  String.length (s +:+ t) = (String.length s + String.length t)%nat.
Proof. induction s as [|a s IH]; [reflexivity|]. rewrite app_cons. simpl. by rewrite IH. Qed.

Lemma startswith_app (p r : string) : PyStr.startswith p (p +:+ r) = true.
Proof.
  unfold PyStr.startswith. induction p as [|a p IH].
  - by destruct r.
  - rewrite app_cons. simpl. destruct (ascii_dec a a); [exact IH|done].
Qed.

Lemma startswith_inv (p s : string) :
  PyStr.startswith p s = true → ∃ r, s = p +:+ r.
Proof.
  unfold PyStr.startswith. revert s. induction p as [|a p IH]; intros s Hs.
  - by exists s.
  - destruct s as [|b s]; [done|]. simpl in Hs.
    destruct (ascii_dec a b) as [->|]; [|done].
    destruct (IH _ Hs) as [r ->]. by exists r.
Qed.

Lemma slice_from_app (p r : string) : PyStr.slice_from (String.length p) (p +:+ r) = r.
Proof. induction p as [|a p IH]; [by destruct r|]. rewrite app_cons. exact IH. Qed.

Lemma endswith_char_cons (c a : ascii) (s : string) :
  PyStr.endswith (String c EmptyString) (String a s) =
  (Ascii.eqb c a && String.eqb EmptyString s) || PyStr.endswith (String c EmptyString) s.
Proof. reflexivity. Qed.

Lemma endswith_app_char (c : ascii) (s : string) :
  PyStr.endswith (String c EmptyString) (s +:+ String c EmptyString) = true.
Proof.
  induction s as [|a s IH].
  - simpl. by rewrite Ascii.eqb_refl.
  - rewrite app_cons, endswith_char_cons, IH. apply orb_true_r.
Qed.

Lemma rstrip_app_char (c : ascii) (s : string) :
  PyStr.rstrip c (s +:+ String c EmptyString) = PyStr.rstrip c s.
Proof.
  induction s as [|a s IH].
  - simpl. by rewrite Ascii.eqb_refl.
  - rewrite app_cons. simpl. by rewrite IH.
Qed.

Lemma rstrip_length (c : ascii) (s : string) :
  (String.length (PyStr.rstrip c s) ≤ String.length s)%nat.
Proof.
  induction s as [|a s IH]; [done|]. simpl.
  destruct (PyStr.rstrip c s) as [|b r].
  - destruct (Ascii.eqb a c); simpl; lia.
  - simpl in *. lia.
Qed.

Lemma rstrip_no_suffix (c : ascii) (s : string) :
  PyStr.endswith (String c EmptyString) s = false → PyStr.rstrip c s = s.
Proof.
  induction s as [|a s IH]; [done|].
  rewrite endswith_char_cons. intros [Hhd Htl]%orb_false_elim.
  simpl. rewrite (IH Htl). destruct s as [|b s]; [|done].
  simpl in Hhd. rewrite andb_true_r in Hhd.
  rewrite Ascii.eqb_sym, Hhd. done.
Qed.

Lemma rstrip_suffix (c : ascii) (s : string) :
  PyStr.endswith (String c EmptyString) s = true →
  (String.length (PyStr.rstrip c s) < String.length s)%nat.
Proof.
  induction s as [|a s IH]; [done|].
  rewrite endswith_char_cons. intros [Hhd|Htl]%orb_true_iff.
  - apply andb_true_iff in Hhd as [Hc Hs].
    apply Ascii.eqb_eq in Hc as <-. apply String.eqb_eq in Hs as <-.
    simpl. rewrite Ascii.eqb_refl. simpl. lia.
  - specialize (IH Htl). simpl.
    destruct (PyStr.rstrip c s) as [|b r].
    + destruct (Ascii.eqb a c); simpl in *; lia.
    + simpl in *. lia.
Qed.

Lemma trailing_no_suffix (c : ascii) (s : string) :
  PyStr.endswith (String c EmptyString) s = false → PyStr.trailing c s = 0%nat.
Proof. intros Hs. unfold PyStr.trailing. rewrite (rstrip_no_suffix _ _ Hs). lia. Qed.

Lemma trailing_suffix (c : ascii) (s : string) :
  PyStr.endswith (String c EmptyString) s = true → (1 ≤ PyStr.trailing c s)%nat.
Proof. intros Hs%rstrip_suffix. unfold PyStr.trailing. lia. Qed.

Lemma trailing_app_char (c : ascii) (s : string) :
  PyStr.trailing c (s +:+ String c EmptyString) = S (PyStr.trailing c s).
Proof.
  unfold PyStr.trailing. rewrite rstrip_app_char, app_length. simpl.
  pose proof (rstrip_length c s). lia.
Qed.

End StringFacts.

(** The test vectors of RFC 4648, section 10. *)
Example standard_b64encode_rfc4648 :
  Base64.standard_b64encode EmptyString = EmptyString
  ∧ Base64.standard_b64encode "f" = "Zg=="
  ∧ Base64.standard_b64encode "fo" = "Zm8="
  ∧ Base64.standard_b64encode "foo" = "Zm9v"
  ∧ Base64.standard_b64encode "foob" = "Zm9vYg=="
  ∧ Base64.standard_b64encode "fooba" = "Zm9vYmE="
  ∧ Base64.standard_b64encode "foobar" = "Zm9vYmFy".
Proof. repeat split. Qed.

Example strip_examples :
  PyStr.rstrip "/" "a//b///" = "a//b"
  ∧ PyStr.lstrip "/" "///a//b/" = "a//b/"
  ∧ PyStr.endswith "/" "a/" = true
  ∧ PyStr.endswith "/" "a/b" = false
  ∧ PyStr.contains "://" "https://example.com" = true
  ∧ PyStr.lower (str_of_bool true) = "true"
  ∧ PyStr.lower (str_of_bool false) = "false".
Proof. repeat split. Qed.

(** ** The constructor *)

Section Constructor.

Lemma result_bind_return {A B} (r : result A) (k : A → result B) (b : B) :
  result_bind r k = Return b → ∃ a, r = Return a ∧ k a = Return b.
Proof. destruct r as [a|e]; simpl; [eauto|done]. Qed.

(** A construction succeeds exactly when the credentials give a header,
    and then stores the normalised URL and that header. *)
Lemma ApiClient_init_returns url token user password authorization_header
    client throttle_seconds verbose c :
  ApiClient_init url token user password authorization_header client
    throttle_seconds verbose = Return c ↔
  ∃ h, credentials_header token user password authorization_header client = Return h
       ∧ c = ApiClient.mk (with_trailing_slash (joined_url client url)) user
               throttle_seconds 300 5 0 verbose
               (Session.mk
                  (<["Authorization" := h]> (<["Content-Type" := "text/json"]> ∅))
                  ["http://"; "https://"] 5).
Proof.
  unfold ApiClient_init. split.
  - intros (h & Hh & [= <-])%result_bind_return. eauto.
  - intros (h & -> & ->). reflexivity.
Qed.

Lemma authorization_init url user throttle_seconds verbose h :
  authorization
    (ApiClient.mk url user throttle_seconds 300 5 0 verbose
       (Session.mk
          (<["Authorization" := h]> (<["Content-Type" := "text/json"]> ∅))
          ["http://"; "https://"] 5)) = Some h.
Proof. unfold authorization. simpl. apply lookup_insert_eq. Qed.

Lemma ApiClient_init_header url token user password authorization_header
    client throttle_seconds verbose h :
  credentials_header token user password authorization_header client = Return h →
  ∃ c, ApiClient_init url token user password authorization_header client
         throttle_seconds verbose = Return c
       ∧ authorization c = Some h.
Proof.
  intros Hh. eexists. split.
  - apply ApiClient_init_returns. eauto.
  - apply authorization_init.
Qed.

(** C3, amended. The Authorization header of a constructed client: a
    non-empty [authorization_header] is passed through; otherwise (none, or
    an empty one) a token gives ["Bearer " + token]; otherwise a user and a
    password give ["Basic "] followed by the standard base64 of
    [user:password]; otherwise the header of the parent client is
    inherited.  In each case the construction succeeds. *)
Theorem ApiClient_init_authorization_scheme
    url token user password authorization_header client throttle_seconds verbose :
  let init := ApiClient_init url token user password authorization_header client
                throttle_seconds verbose in
  (∀ h, authorization_header = Some h → h ≠ EmptyString →
        ∃ c, init = Return c ∧ authorization c = Some h)
  ∧ (str_truthy authorization_header = false →
     ∀ t, token = Some t →
          ∃ c, init = Return c ∧ authorization c = Some ("Bearer " +:+ t))
  ∧ (str_truthy authorization_header = false → token = None →
     ∀ u p, user = Some u → password = Some p →
            ∃ c, init = Return c
                 ∧ authorization c =
                     Some ("Basic " +:+ Base64.standard_b64encode (u +:+ ":" +:+ p)))
  ∧ (str_truthy authorization_header = false → token = None →
     user = None ∨ password = None →
     ∀ parent h, client = Some parent → authorization parent = Some h →
                 ∃ c, init = Return c ∧ authorization c = Some h).
Proof.
  intros init. subst init. repeat split.
  - intros h -> Hne. apply ApiClient_init_header.
    unfold credentials_header, str_truthy.
    destruct (String.eqb h EmptyString) eqn:E; [|done].
    by apply String.eqb_eq in E.
  - intros Hhdr t ->. apply ApiClient_init_header.
    unfold credentials_header. by rewrite Hhdr.
  - intros Hhdr -> u p -> ->. apply ApiClient_init_header.
    unfold credentials_header. by rewrite Hhdr.
  - intros Hhdr -> Hup parent h -> Hparent. apply ApiClient_init_header.
    unfold credentials_header. rewrite Hhdr.
    unfold authorization in Hparent.
    destruct Hup as [-> | ->]; [|destruct user]; by rewrite Hparent.
Qed.

(** C7. Without a header, a token, a user with a password, or a parent
    client, the constructor raises [ValueError]: no client comes into
    being. *)
Theorem ApiClient_init_requires_credentials
    url user password authorization_header throttle_seconds verbose :
  str_truthy authorization_header = false →
  user = None ∨ password = None →
  ApiClient_init url None user password authorization_header None
    throttle_seconds verbose =
  Raise (ValueError "Must specify one of token, password, or authorization_header").
Proof.
  intros Hhdr Hup. unfold ApiClient_init, credentials_header. rewrite Hhdr.
  destruct Hup as [-> | ->]; [|destruct user]; reflexivity.
Qed.

Lemma with_trailing_slash_endswith url :
  PyStr.endswith "/" (with_trailing_slash url) = true.
Proof.
  unfold with_trailing_slash.
  destruct (PyStr.endswith "/" url) eqn:E; simpl; [done|].
  apply endswith_app_char.
Qed.

Lemma with_trailing_slash_trailing url :
  PyStr.trailing "/" (with_trailing_slash url) = Nat.max 1 (PyStr.trailing "/" url).
Proof.
  unfold with_trailing_slash.
  destruct (PyStr.endswith "/" url) eqn:E; simpl.
  - apply trailing_suffix in E. lia.
  - rewrite trailing_app_char, (trailing_no_suffix _ _ E). done.
Qed.

(** C4, amended. The stored URL always ends with ['/'], but with as many
    as the (joined) input had when it had any: the input is kept when it
    ends with ['/'] and gets a single ['/'] appended otherwise, so the
    stored URL has [max 1 n] trailing separators for an input with [n].
    A client is constructed whenever the credentials give a header. *)
Theorem ApiClient_init_url_trailing_slash
    url token user password authorization_header client throttle_seconds verbose :
  let url0 := joined_url client url in
  let init := ApiClient_init url token user password authorization_header client
                throttle_seconds verbose in
  (∀ c, init = Return c →
     ApiClient.url c = (if PyStr.endswith "/" url0 then url0 else url0 +:+ "/")
     ∧ PyStr.endswith "/" (ApiClient.url c) = true
     ∧ PyStr.trailing "/" (ApiClient.url c) = Nat.max 1 (PyStr.trailing "/" url0))
  ∧ (∀ h, credentials_header token user password authorization_header client = Return h →
          ∃ c, init = Return c).
Proof.
  intros url0 init. subst url0 init. split.
  - intros c Hc. apply ApiClient_init_returns in Hc as (h & _ & ->).
    simpl. split; [|split].
    + unfold with_trailing_slash. by destruct (PyStr.endswith "/" _).
    + apply with_trailing_slash_endswith.
    + apply with_trailing_slash_trailing.
  - intros h Hh.
    destruct (ApiClient_init_header url _ _ _ _ _ throttle_seconds verbose h Hh)
      as (c & Hc & _).
    eauto.
Qed.

End Constructor.

Lemma ApiClient_init_authorization_scheme_witness :
  ∃ c, ApiClient_init "https://example.com" None (Some "user") (Some "pass") None None 0 false
       = Return c
       ∧ authorization c = Some "Basic dXNlcjpwYXNz".
Proof.
  exact (proj1 (proj2 (proj2
    (ApiClient_init_authorization_scheme "https://example.com" None (Some "user")
       (Some "pass") None None 0 false))) eq_refl eq_refl "user" "pass" eq_refl eq_refl).
Defined.

Lemma ApiClient_init_requires_credentials_witness :
  ApiClient_init "https://example.com" None (Some "user") None None None 0 false =
  Raise (ValueError "Must specify one of token, password, or authorization_header").
Proof.
  apply (ApiClient_init_requires_credentials "https://example.com" (Some "user") None None 0 false).
  - reflexivity.
  - right. reflexivity.
Defined.

(** C4 as stated fails: two trailing separators are stored as two. *)
Lemma ApiClient_init_keeps_double_slash :
  ∃ c, ApiClient_init "https://example.com//" (Some "tok") None None None None 0 false
       = Return c
       ∧ ApiClient.url c = "https://example.com//"
       ∧ PyStr.trailing "/" (ApiClient.url c) = 2%nat
       ∧ PyStr.trailing "/" (ApiClient.url c) ≠ 1%nat.
Proof. eexists. split; [reflexivity|]. repeat split. vm_compute. lia. Qed.

Lemma ApiClient_init_url_trailing_slash_witness :
  ApiClient.url sample_client = "https://example.com/api/"
  ∧ PyStr.endswith "/" (ApiClient.url sample_client) = true
  ∧ PyStr.trailing "/" (ApiClient.url sample_client) = Nat.max 1 0.
Proof.
  apply (proj1 (ApiClient_init_url_trailing_slash "https://example.com/api" (Some "tok")
                  None None None None 0 false) sample_client).
  reflexivity.
Defined.

(** ** Running [api] *)

Section ApiRun.
Context `{PyRuntime} `{Network}.

Lemma truthy_dict_false (d : dict) : py_truthy (PyDict d) = false ↔ d = ∅.
Proof.
  simpl. rewrite negb_false_iff, Nat.eqb_eq. apply map_size_empty_iff.
Qed.

Lemma heap_dict_insert (h : gmap loc dict) l d : heap_dict (<[l := d]> h) l = d.
Proof. unfold heap_dict. by rewrite lookup_insert_eq. Qed.

Lemma prepare_payload_dict h _data data :
  heap_dict (prepare_payload h _data data).2 (prepare_payload h _data data).1
  = merged_payload h _data data.
Proof.
  unfold prepare_payload, merged_payload.
  destruct (py_truthy (PyDict data)) eqn:E.
  - destruct _data as [l|]; simpl; rewrite !heap_dict_insert; done.
  - apply truthy_dict_false in E as ->. rewrite (left_id_L ∅ (∪)).
    destruct _data as [l|]; simpl; [done|]. by rewrite heap_dict_insert.
Qed.

Lemma fresh_not_in (h : gmap loc dict) l : is_Some (h !! l) → fresh (dom h) ≠ l.
Proof. intros Hl%elem_of_dom <-. by apply (is_fresh (dom h)). Qed.

Lemma lookup_insert_fresh (h : gmap loc dict) v l d :
  h !! l = Some d → <[fresh (dom h) := v]> h !! l = Some d.
Proof. intros Hl. rewrite lookup_insert_ne; [done|]. apply fresh_not_in. eauto. Qed.

(** Whatever is on the heap before the call is there, unchanged, after
    the payload has been prepared. *)
Lemma prepare_payload_frame h _data data l d :
  h !! l = Some d → (prepare_payload h _data data).2 !! l = Some d.
Proof.
  intros Hl. unfold prepare_payload.
  destruct _data as [l0|], (py_truthy (PyDict data)); simpl;
    auto using lookup_insert_fresh.
Qed.

Lemma throttle_calls_run st :
  (_throttle_calls st).1 = Return tt
  ∧ heap (_throttle_calls st).2 = heap st
  ∧ sent (_throttle_calls st).2 = sent st
  ∧ ApiClient.url (this (_throttle_calls st).2) = ApiClient.url (this st)
  ∧ ApiClient.session (this (_throttle_calls st).2) = ApiClient.session (this st)
  ∧ ApiClient.connect_timeout (this (_throttle_calls st).2)
    = ApiClient.connect_timeout (this st)
  ∧ ApiClient.read_timeout (this (_throttle_calls st).2)
    = ApiClient.read_timeout (this st).
Proof.
  unfold _throttle_calls.
  destruct (ApiClient.throttle_seconds (this st) <=? 0); simpl; done.
Qed.

(** [api], stage by stage. *)
Lemma api_run _http_method _endpoint_path _data _expected _return_type data st :
  api _http_method _endpoint_path _data _expected _return_type data st =
  let '(l, h1) := prepare_payload (heap st) _data data in
  let st1 := mkState (this st) h1 (clock st) (sent st) in
  if hostname_resolves (ApiClient.url (this st)) then
    let st2 := (_throttle_calls st1).2 in
    match resolve_url (ApiClient.url (this st)) _endpoint_path with
    | Raise e => (Raise e, st2)
    | Return url =>
        let request := api_request (this st) _http_method url (heap_dict h1 l) in
        let response := http_send request in
        let st3 := mkState (this st2) h1 (clock st2) (sent st ++ [request])%list in
        match _raise_for_status response _expected with
        | Raise e => (Raise e, st3)
        | Return _ =>
            (Return (if is_2xx (Response.status_code response)
                     then deserialize response _return_type else ResNone),
             st3)
        end
    end
  else (Raise (ConnectionError "DNS lookup for hostname failed"), st1).
Proof.
  destruct st as [self h c s].
  unfold api, prepare_payload, api_request, _verify_hostname, session_request,
    dict_copy, new_dict, dict_update, dict_read, get_this, lift, raise, mret, mbind.
  destruct _data as [l0|], (py_truthy (PyDict data)); simpl;
    rewrite ?heap_dict_insert, ?insert_insert_eq;
    (destruct (hostname_resolves (ApiClient.url self)); [|done]).
  all: match goal with
    | |- context [_throttle_calls ?st1] =>
        destruct (throttle_calls_run st1) as (Hr & Hh & Hs & Hu & Hse & Hc & Hrd);
        destruct (_throttle_calls st1) as [r st2]; simpl in *; subst r
    end.
  all: rewrite ?Hu, ?Hse, ?Hc, ?Hrd, ?Hh, ?Hs.
  all: (destruct (resolve_url (ApiClient.url self) _endpoint_path) as [url|e]; simpl;
     [|done]).
  all: destruct (is_query_method _http_method); simpl.
  all: rewrite ?heap_dict_insert, ?Hh, ?Hs.
  all:  match goal with
    | |- context [_raise_for_status ?r ?e] => destruct (_raise_for_status r e)
    end; simpl; try done;
    match goal with
    | |- context [is_2xx ?c] => destruct (is_2xx c)
    end; done.
Qed.

End ApiRun.

(** ** Status classification and the structured exception *)

Section Status.
Context `{PyRuntime}.

(** The message an exception ends up with: an explicit (truthy) [message]
    argument, or else what the body gave. *)
Lemma DatabricksApiException_init_object message http_code e d :
  json_loads (Response.text (HTTPError.response e)) = Some (PyDict d) →
  ∃ exc, DatabricksApiException_init message http_code (Some e) = Return exc
         ∧ DatabricksApiException.body exc = PyDict d
         ∧ DatabricksApiException.message exc
           = (if py_truthy message then message
              else dict_get d "message"
                     (dict_get d "error" (PyStr (Response.text (HTTPError.response e)))))
         ∧ DatabricksApiException.error_code exc = dict_get d "error_code" (PyInt (-1))
         ∧ carries exc e.
Proof.
  intros Hj. unfold DatabricksApiException_init. rewrite Hj. cbn [result_bind].
  eexists. split; [reflexivity|]. unfold carries. simpl. done.
Qed.

Lemma DatabricksApiException_init_not_json message http_code e :
  json_loads (Response.text (HTTPError.response e)) = None →
  ∃ exc, DatabricksApiException_init message http_code (Some e) = Return exc
         ∧ DatabricksApiException.body exc = PyStr (Response.text (HTTPError.response e))
         ∧ DatabricksApiException.message exc
           = (if py_truthy message then message
              else PyStr (Response.text (HTTPError.response e)))
         ∧ DatabricksApiException.error_code exc = PyInt (-1)
         ∧ carries exc e.
Proof.
  intros Hj. unfold DatabricksApiException_init. rewrite Hj. cbn [result_bind].
  eexists. split; [reflexivity|]. unfold carries. simpl. done.
Qed.

(** A body that is JSON but not an object stops the constructor. *)
Lemma DatabricksApiException_init_not_object message http_code e v :
  json_loads (Response.text (HTTPError.response e)) = Some v →
  (∀ d, v ≠ PyDict d) →
  DatabricksApiException_init message http_code (Some e)
  = Raise (AttributeError (no_attribute_get v)).
Proof.
  intros Hj Hv. unfold DatabricksApiException_init. rewrite Hj.
  destruct v; try reflexivity. by destruct (Hv d).
Qed.

(** C8, amended. A [DatabricksApiException] built from an HTTP error
    carries the method, the endpoint path and the status code.  Its message
    is the [message] argument when one is supplied (and truthy); otherwise,
    for a body that parses as a JSON object, the body's ["message"] entry,
    else its ["error"] entry, else the raw text, and for a body that is not
    JSON the raw text.  Its error code is the body's ["error_code"] entry,
    else [-1], and [-1] for a body that is not JSON. *)
Theorem DatabricksApiException_from_http_error message http_code e :
  let text := Response.text (HTTPError.response e) in
  let built := DatabricksApiException_init message http_code (Some e) in
  (∀ d, json_loads text = Some (PyDict d) →
     ∃ exc, built = Return exc
            ∧ carries exc e
            ∧ DatabricksApiException.message exc =
                (if py_truthy message then message
                 else match d !! "message" with
                      | Some m => m
                      | None => match d !! "error" with
                                | Some m => m
                                | None => PyStr text
                                end
                      end)
            ∧ DatabricksApiException.error_code exc =
                match d !! "error_code" with
                | Some c => c
                | None => PyInt (-1)
                end)
  ∧ (json_loads text = None →
     ∃ exc, built = Return exc
            ∧ carries exc e
            ∧ DatabricksApiException.message exc =
                (if py_truthy message then message else PyStr text)
            ∧ DatabricksApiException.error_code exc = PyInt (-1)).
Proof.
  intros text built. subst text built. split.
  - intros d Hj.
    destruct (DatabricksApiException_init_object message http_code e d Hj)
      as (exc & Hexc & _ & Hmsg & Hcode & Hcar).
    exists exc. split; [done|]. split; [done|].
    rewrite Hmsg, Hcode. unfold dict_get.
    destruct (py_truthy message), (d !! "message"), (d !! "error"),
      (d !! "error_code"); done.
  - intros Hj.
    destruct (DatabricksApiException_init_not_json message http_code e Hj)
      as (exc & Hexc & _ & Hmsg & Hcode & Hcar).
    exists exc. done.
Qed.

Lemma existsb_status (status_code : Z) (codes : list Z) :
  existsb (Z.eqb status_code) codes = true ↔ In status_code codes.
Proof.
  rewrite existsb_exists. split.
  - intros (x & Hx & ->%Z.eqb_eq). done.
  - intros Hin. exists status_code. by rewrite Z.eqb_refl.
Qed.

(** A status in [200, 300), or one of the expected codes, is accepted. *)
Lemma raise_for_status_accepts response expected :
  is_2xx (Response.status_code response) = true
  ∨ (∃ codes, expected_codes expected = Return codes
              ∧ In (Response.status_code response) codes) →
  _raise_for_status response expected = Return tt.
Proof.
  unfold _raise_for_status. intros [H2|(codes & Hc & Hin)].
  - by rewrite H2.
  - destruct (is_2xx _); [done|]. rewrite Hc. simpl.
    apply existsb_status in Hin. by rewrite Hin.
Qed.

(** An unexpected status outside [400, 500) raises the generic error. *)
Lemma raise_for_status_http_error response expected codes :
  is_2xx (Response.status_code response) = false →
  expected_codes expected = Return codes →
  ¬ In (Response.status_code response) codes →
  is_4xx (Response.status_code response) = false →
  _raise_for_status response expected
  = Raise (HTTPErrorExn (HTTPError.new (http_error_msg response) response)).
Proof.
  intros H2 Hc Hin H4. unfold _raise_for_status. rewrite H2, Hc. cbn [result_bind].
  destruct (existsb _ codes) eqn:E; [by apply existsb_status in E|].
  by rewrite H4.
Qed.

(** An unexpected status in [400, 500) raises the structured exception,
    provided the body is a JSON object or is not JSON at all. *)
Lemma raise_for_status_client_error response expected codes :
  is_2xx (Response.status_code response) = false →
  expected_codes expected = Return codes →
  ¬ In (Response.status_code response) codes →
  is_4xx (Response.status_code response) = true →
  (json_loads (Response.text response) = None
   ∨ ∃ d, json_loads (Response.text response) = Some (PyDict d)) →
  ∃ exc, _raise_for_status response expected = Raise (DatabricksApiExceptionExn exc)
         ∧ DatabricksApiException.http_code exc = PyInt (Response.status_code response)
         ∧ DatabricksApiException.message exc =
             match json_loads (Response.text response) with
             | Some (PyDict d) =>
                 dict_get d "message"
                   (dict_get d "error" (PyStr (Response.text response)))
             | _ => PyStr (Response.text response)
             end.
Proof.
  intros H2 Hc Hin H4 Hj. unfold _raise_for_status. rewrite H2, Hc. cbn [result_bind].
  destruct (existsb _ codes) eqn:E; [by apply existsb_status in E|].
  rewrite H4.
  set (e := HTTPError.new (http_error_msg response) response).
  destruct Hj as [Hj | [d Hj]].
  - destruct (DatabricksApiException_init_not_json PyNone PyNone e Hj)
      as (exc & -> & _ & Hmsg & _ & _ & _ & Hcode).
    exists exc. rewrite Hj. done.
  - destruct (DatabricksApiException_init_object PyNone PyNone e d Hj)
      as (exc & -> & _ & Hmsg & _ & _ & _ & Hcode).
    exists exc. rewrite Hj. done.
Qed.

(** An unexpected status in [400, 500) whose body is JSON but not an
    object raises [AttributeError] instead. *)
Lemma raise_for_status_client_error_not_object response expected codes v :
  is_2xx (Response.status_code response) = false →
  expected_codes expected = Return codes →
  ¬ In (Response.status_code response) codes →
  is_4xx (Response.status_code response) = true →
  json_loads (Response.text response) = Some v →
  (∀ d, v ≠ PyDict d) →
  _raise_for_status response expected = Raise (AttributeError (no_attribute_get v)).
Proof.
  intros H2 Hc Hin H4 Hj Hv. unfold _raise_for_status. rewrite H2, Hc. cbn [result_bind].
  destruct (existsb _ codes) eqn:E; [by apply existsb_status in E|].
  rewrite H4.
  rewrite (DatabricksApiException_init_not_object PyNone PyNone _ v); done.
Qed.

End Status.

(** C1, at the input where the code departs from it: a 403 response whose
    body is the JSON array [[]], with nothing expected, makes
    [_raise_for_status] raise [AttributeError], not
    [DatabricksApiException]. *)
Theorem raise_for_status_forbidden_json_array :
  @_raise_for_status sample_runtime (sample_response 403 "Forbidden" "[]") ExpNone
  = Raise (AttributeError "'list' object has no attribute 'get'").
Proof. reflexivity. Qed.

(** The two cases the specification singles out. *)
Example raise_for_status_forbidden_object :
  ∃ exc, @_raise_for_status sample_runtime
           (sample_response 403 "Forbidden" forbidden_object_body) ExpNone
         = Raise (DatabricksApiExceptionExn exc)
         ∧ DatabricksApiException.http_code exc = PyInt 403
         ∧ DatabricksApiException.message exc = PyStr "Forbidden".
Proof. eexists. split; [reflexivity|]. split; reflexivity. Qed.

Example raise_for_status_expected_not_found :
  @_raise_for_status sample_runtime
    (sample_response 404 "Not Found" forbidden_object_body) (ExpInt 404)
  = Return tt.
Proof. reflexivity. Qed.

Lemma DatabricksApiException_from_http_error_witness :
  ∃ exc,
    @DatabricksApiException_init sample_runtime PyNone PyNone
      (Some (HTTPError.new "403"
               (sample_response 403 "Forbidden" forbidden_object_body)))
    = Return exc
    ∧ DatabricksApiException.message exc = PyStr "Forbidden"
    ∧ DatabricksApiException.error_code exc = PyInt (-1).
Proof.
  destruct (proj1 (@DatabricksApiException_from_http_error sample_runtime PyNone PyNone
                     (HTTPError.new "403"
                        (sample_response 403 "Forbidden" forbidden_object_body)))
              {["message" := PyStr "Forbidden"]} eq_refl)
    as (exc & Hexc & _ & Hmsg & Hcode).
  exists exc. split; [exact Hexc|]. split; [exact Hmsg|exact Hcode].
Defined.

(** C8 as stated fails: built from an HTTP error whose JSON body has the
    message ["Forbidden"], but with the argument [message="boom"], the
    exception has the message ["boom"]. *)
Lemma DatabricksApiException_message_argument_wins :
  ∃ exc d,
    @DatabricksApiException_init sample_runtime (PyStr "boom") PyNone
      (Some (HTTPError.new "403"
               (sample_response 403 "Forbidden" forbidden_object_body)))
    = Return exc
    ∧ @json_loads sample_runtime forbidden_object_body = Some (PyDict d)
    ∧ d !! "message" = Some (PyStr "Forbidden")
    ∧ DatabricksApiException.message exc = PyStr "boom"
    ∧ Some (DatabricksApiException.message exc) ≠ d !! "message".
Proof.
  eexists. eexists. split; [reflexivity|]. split; [reflexivity|].
  split; [reflexivity|]. split; [reflexivity|]. discriminate.
Qed.

(** ** Properties of [api] *)

Section ApiProperties.
Context `{PyRuntime} `{Network}.

Lemma api_heap _http_method _endpoint_path _data _expected _return_type data st :
  heap (api _http_method _endpoint_path _data _expected _return_type data st).2
  = (prepare_payload (heap st) _data data).2.
Proof.
  rewrite api_run.
  destruct (prepare_payload (heap st) _data data) as [l h1]. simpl.
  destruct (hostname_resolves _); [|done].
  match goal with
  | |- context [_throttle_calls ?st1] =>
      destruct (throttle_calls_run st1) as (_ & Hh & _)
  end.
  destruct (resolve_url _ _); [|done].
  destruct (_raise_for_status _ _); done.
Qed.

Lemma api_offline _http_method _endpoint_path _data _expected _return_type data st :
  hostname_resolves (ApiClient.url (this st)) = false →
  (api _http_method _endpoint_path _data _expected _return_type data st).1
  = Raise (ConnectionError "DNS lookup for hostname failed")
  ∧ sent (api _http_method _endpoint_path _data _expected _return_type data st).2
    = sent st.
Proof.
  intros Hdns. rewrite api_run.
  destruct (prepare_payload (heap st) _data data) as [l h1]. simpl.
  by rewrite Hdns.
Qed.

Lemma api_usage_error _http_method _endpoint_path _data _expected _return_type data st e :
  hostname_resolves (ApiClient.url (this st)) = true →
  resolve_url (ApiClient.url (this st)) _endpoint_path = Raise e →
  (api _http_method _endpoint_path _data _expected _return_type data st).1 = Raise e
  ∧ sent (api _http_method _endpoint_path _data _expected _return_type data st).2
    = sent st.
Proof.
  intros Hdns Hurl. rewrite api_run.
  destruct (prepare_payload (heap st) _data data) as [l h1]. simpl.
  rewrite Hdns, Hurl.
  match goal with
  | |- context [_throttle_calls ?st1] =>
      destruct (throttle_calls_run st1) as (_ & _ & Hs & _)
  end.
  done.
Qed.

Lemma api_sends _http_method _endpoint_path _data _expected _return_type data st url :
  hostname_resolves (ApiClient.url (this st)) = true →
  resolve_url (ApiClient.url (this st)) _endpoint_path = Return url →
  let request :=
    api_request (this st) _http_method url (merged_payload (heap st) _data data) in
  let response := http_send request in
  sent (api _http_method _endpoint_path _data _expected _return_type data st).2
  = (sent st ++ [request])%list
  ∧ (api _http_method _endpoint_path _data _expected _return_type data st).1
    = match _raise_for_status response _expected with
      | Raise e => Raise e
      | Return _ =>
          Return (if is_2xx (Response.status_code response)
                  then deserialize response _return_type else ResNone)
      end.
Proof.
  intros Hdns Hurl. rewrite api_run.
  pose proof (prepare_payload_dict (heap st) _data data) as Hp.
  destruct (prepare_payload (heap st) _data data) as [l h1]. simpl in *.
  rewrite Hdns, Hurl, Hp.
  destruct (_raise_for_status _ _); done.
Qed.

(** A call issues no request, or exactly one: the one built from the
    resolved URL and the merged payload. *)
Lemma api_sent _http_method _endpoint_path _data _expected _return_type data st :
  sent (api _http_method _endpoint_path _data _expected _return_type data st).2 = sent st
  ∨ ∃ url,
      hostname_resolves (ApiClient.url (this st)) = true
      ∧ resolve_url (ApiClient.url (this st)) _endpoint_path = Return url
      ∧ sent (api _http_method _endpoint_path _data _expected _return_type data st).2
        = (sent st ++ [api_request (this st) _http_method url
                         (merged_payload (heap st) _data data)])%list.
Proof.
  destruct (hostname_resolves (ApiClient.url (this st))) eqn:Hdns.
  - destruct (resolve_url (ApiClient.url (this st)) _endpoint_path) as [url|e] eqn:Hurl.
    + right. exists url. split; [done|]. split; [done|].
      by destruct (api_sends _http_method _endpoint_path _data _expected
                     _return_type data st url Hdns Hurl).
    + left. by destruct (api_usage_error _http_method _endpoint_path _data _expected
                           _return_type data st e Hdns Hurl).
  - left. by destruct (api_offline _http_method _endpoint_path _data _expected
                         _return_type data st Hdns).
Qed.

Lemma app_singleton_inv {A} (l : list A) (x y : A) :
  (l ++ [x])%list = (l ++ [y])%list → x = y.
Proof. intros Heq%app_inv_head. by injection Heq. Qed.

Lemma app_singleton_ne {A} (l : list A) (x : A) : l ≠ (l ++ [x])%list.
Proof.
  intros Heq%(f_equal length). rewrite length_app in Heq. simpl in Heq. lia.
Qed.

(** Lines 167-171, case by case. *)
Lemma resolve_url_own_prefix base rest :
  resolve_url base (base +:+ rest) = Return (base +:+ PyStr.lstrip "/" rest).
Proof.
  unfold resolve_url. by rewrite startswith_app, slice_from_app.
Qed.

Lemma resolve_url_foreign base p :
  PyStr.startswith base p = false → PyStr.startswith "http" p = true →
  resolve_url base p
  = Raise (ValueError ("endpoint_path must be relative url, not " +:+ py_repr p +:+ ".")).
Proof. intros Hb Hh. unfold resolve_url. by rewrite Hb, Hh. Qed.

Lemma resolve_url_relative base p :
  PyStr.startswith base p = false → PyStr.startswith "http" p = false →
  resolve_url base p = Return (base +:+ PyStr.lstrip "/" p).
Proof. intros Hb Hh. unfold resolve_url. by rewrite Hb, Hh. Qed.

Lemma api_request_url self m url payload :
  Request.url (api_request self m url payload) = url
  ∧ Request.method (api_request self m url payload) = m.
Proof. unfold api_request. by destruct (is_query_method m). Qed.

(** C5, amended. Once the host name has resolved: a path that starts with
    the base URL is requested at the base URL followed by the rest of the
    path with its leading ['/'] characters stripped; any other path that
    starts with ["http"] raises [ValueError] and no request is issued; any
    other path is requested at the base URL followed by the path with its
    leading ['/'] characters stripped. *)
Theorem api_url_resolution
    _http_method _endpoint_path _data _expected _return_type data st :
  hostname_resolves (ApiClient.url (this st)) = true →
  let base := ApiClient.url (this st) in
  let out := api _http_method _endpoint_path _data _expected _return_type data st in
  (PyStr.startswith base _endpoint_path = true →
     ∃ rest request,
       _endpoint_path = base +:+ rest
       ∧ sent out.2 = (sent st ++ [request])%list
       ∧ Request.url request = base +:+ PyStr.lstrip "/" rest)
  ∧ (PyStr.startswith base _endpoint_path = false →
     PyStr.startswith "http" _endpoint_path = true →
     (∃ msg, out.1 = Raise (ValueError msg)) ∧ sent out.2 = sent st)
  ∧ (PyStr.startswith base _endpoint_path = false →
     PyStr.startswith "http" _endpoint_path = false →
     ∃ request, sent out.2 = (sent st ++ [request])%list
                ∧ Request.url request = base +:+ PyStr.lstrip "/" _endpoint_path).
Proof.
  intros Hdns base out. subst base out. split; [|split].
  - intros [rest ->]%startswith_inv.
    destruct (api_sends _http_method (ApiClient.url (this st) +:+ rest) _data
                _expected _return_type data st _ Hdns (resolve_url_own_prefix _ _))
      as [Hs _].
    exists rest. eexists. split; [done|]. split; [exact Hs|]. apply api_request_url.
  - intros Hb Hh.
    destruct (api_usage_error _http_method _endpoint_path _data _expected
                _return_type data st _ Hdns (resolve_url_foreign _ _ Hb Hh))
      as [Hr Hs]. eauto.
  - intros Hb Hh.
    destruct (api_sends _http_method _endpoint_path _data
                _expected _return_type data st _ Hdns (resolve_url_relative _ _ Hb Hh))
      as [Hs _].
    eexists. split; [exact Hs|]. apply api_request_url.
Qed.

Lemma is_query_method_true m :
  is_query_method m = true ↔ m = "GET" ∨ m = "HEAD" ∨ m = "OPTIONS".
Proof.
  unfold is_query_method. rewrite !orb_true_iff, !String.eqb_eq. tauto.
Qed.

Lemma query_value_bool b :
  query_value (PyBool b) = PyStr (if b then "true" else "false").
Proof. by destruct b. Qed.

Lemma query_value_other v : (∀ b, v ≠ PyBool b) → query_value v = v.
Proof. intros Hv. destruct v; try done. by destruct (Hv b). Qed.

(** C6. The request a call to [api] issues: with the method [GET], [HEAD]
    or [OPTIONS] it carries the payload as query parameters, each boolean
    replaced by ["true"] or ["false"] and every other value unchanged, and
    has no body; with any other method it carries the JSON serialisation of
    the payload as its body and has no query parameters.  The request is
    issued whenever the host resolves and the path is accepted. *)
Theorem api_payload_encoding
    _http_method _endpoint_path _data _expected _return_type data st :
  let payload := merged_payload (heap st) _data data in
  let out := api _http_method _endpoint_path _data _expected _return_type data st in
  (∀ request, sent out.2 = (sent st ++ [request])%list →
     Request.method request = _http_method
     ∧ (_http_method = "GET" ∨ _http_method = "HEAD" ∨ _http_method = "OPTIONS" →
        Request.data request = None
        ∧ ∃ params, Request.params request = Some params
            ∧ dom params = dom payload
            ∧ (∀ k b, payload !! k = Some (PyBool b) →
                      params !! k = Some (PyStr (if b then "true" else "false")))
            ∧ (∀ k v, payload !! k = Some v → (∀ b, v ≠ PyBool b) →
                      params !! k = Some v))
     ∧ (¬ (_http_method = "GET" ∨ _http_method = "HEAD" ∨ _http_method = "OPTIONS") →
        Request.params request = None
        ∧ Request.data request = Some (json_dumps payload)))
  ∧ (hostname_resolves (ApiClient.url (this st)) = true →
     ∀ url, resolve_url (ApiClient.url (this st)) _endpoint_path = Return url →
            ∃ request, sent out.2 = (sent st ++ [request])%list
                       ∧ Request.url request = url).
Proof.
  intros payload out. subst out. split.
  - intros request Hsent.
    destruct (api_sent _http_method _endpoint_path _data _expected _return_type data st)
      as [Hs | (url & _ & _ & Hs)]; rewrite Hs in Hsent.
    { by destruct (app_singleton_ne _ _ Hsent). }
    apply app_singleton_inv in Hsent as <-. fold payload.
    destruct (api_request_url (this st) _http_method url payload) as [_ Hm].
    split; [done|]. split.
    + intros Hq%is_query_method_true. unfold api_request. rewrite Hq. simpl.
      split; [done|]. exists (query_value <$> payload). split; [done|].
      split; [apply dom_fmap_L|]. split.
      * intros k b Hk. rewrite lookup_fmap, Hk. simpl. by destruct b.
      * intros k v Hk Hv. rewrite lookup_fmap, Hk. simpl.
        by rewrite query_value_other.
    + intros Hq. unfold api_request.
      destruct (is_query_method _http_method) eqn:E; [|done].
      by apply is_query_method_true in E.
  - intros Hdns url Hurl.
    destruct (api_sends _http_method _endpoint_path _data _expected _return_type data
                st url Hdns Hurl) as [Hs _].
    eexists. split; [exact Hs|]. apply api_request_url.
Qed.

(** C2, amended. When the response status is outside [200, 300) and no
    exception is raised, [api] returns [None], whatever return type was
    asked for: the body is not deserialised.  This is the case whenever the
    status is one of the codes accepted through [_expected]. *)
Theorem api_returns_none_outside_2xx
    _http_method _endpoint_path _data _expected _return_type data st :
  let out := api _http_method _endpoint_path _data _expected _return_type data st in
  (∀ request r,
     sent out.2 = (sent st ++ [request])%list →
     is_2xx (Response.status_code (http_send request)) = false →
     out.1 = Return r →
     r = ResNone)
  ∧ (hostname_resolves (ApiClient.url (this st)) = true →
     ∀ url codes,
       resolve_url (ApiClient.url (this st)) _endpoint_path = Return url →
       let response :=
         http_send (api_request (this st) _http_method url
                      (merged_payload (heap st) _data data)) in
       is_2xx (Response.status_code response) = false →
       expected_codes _expected = Return codes →
       In (Response.status_code response) codes →
       out.1 = Return ResNone).
Proof.
  intros out. subst out. split.
  - intros request r Hsent H2 Hr.
    destruct (api_sent _http_method _endpoint_path _data _expected _return_type data st)
      as [Hs | (url & Hdns & Hurl & Hs)]; rewrite Hs in Hsent.
    { by destruct (app_singleton_ne _ _ Hsent). }
    apply app_singleton_inv in Hsent as <-.
    destruct (api_sends _http_method _endpoint_path _data _expected _return_type data
                st url Hdns Hurl) as [_ Hout].
    rewrite Hout, H2 in Hr. destruct (_raise_for_status _ _); by simplify_eq.
  - intros Hdns url codes Hurl response H2 Hcodes Hin.
    destruct (api_sends _http_method _endpoint_path _data _expected _return_type data
                st url Hdns Hurl) as [_ ->].
    fold response. rewrite raise_for_status_accepts by eauto. by rewrite H2.
Qed.

(** C10. The caller's [_data] dictionary, like every dictionary that was
    on the heap before the call, is the same after it.  With keyword
    arguments the payload is a fresh dictionary holding the entries of
    [_data] overlaid with the keyword arguments, which win; without them
    nothing is allocated and the payload is [_data] itself. *)
Theorem api_preserves_caller_data
    _http_method _endpoint_path l _expected _return_type data st d :
  heap st !! l = Some d →
  let out := api _http_method _endpoint_path (Some l) _expected _return_type data st in
  heap out.2 !! l = Some d
  ∧ (∀ l' d', heap st !! l' = Some d' → heap out.2 !! l' = Some d')
  ∧ (data ≠ ∅ →
     ∃ copy, heap st !! copy = None
             ∧ heap out.2 = <[copy := data ∪ d]> (heap st)
             ∧ ∀ k, (data ∪ d) !! k =
                    match data !! k with
                    | Some v => Some v
                    | None => d !! k
                    end)
  ∧ (data = ∅ → heap out.2 = heap st)
  ∧ (∀ request, sent out.2 = (sent st ++ [request])%list →
       ∃ url, request = api_request (this st) _http_method url (data ∪ d)).
Proof.
  intros Hl out. subst out. rewrite api_heap.
  assert (heap_dict (heap st) l = d) as Hd.
  { unfold heap_dict. by rewrite Hl. }
  repeat split.
  - by apply prepare_payload_frame.
  - intros l' d'. apply prepare_payload_frame.
  - intros Hdata. exists (fresh (dom (heap st))).
    assert (py_truthy (PyDict data) = true) as Ht.
    { destruct (py_truthy (PyDict data)) eqn:E; [done|].
      by apply truthy_dict_false in E. }
    split; [|split].
    + apply not_elem_of_dom, is_fresh.
    + unfold prepare_payload. rewrite Ht, Hd. done.
    + intros k. rewrite lookup_union. destruct (data !! k), (d !! k); done.
  - intros ->. unfold prepare_payload. done.
  - intros request Hsent.
    destruct (api_sent _http_method _endpoint_path (Some l) _expected _return_type
                data st) as [Hs | (url & _ & _ & Hs)]; rewrite Hs in Hsent.
    { by destruct (app_singleton_ne _ _ Hsent). }
    apply app_singleton_inv in Hsent as <-.
    exists url. unfold merged_payload. by rewrite Hd.
Qed.

End ApiProperties.

(** ** [api] on concrete calls *)

Lemma api_url_resolution_witness :
  ∃ rest request,
    "https://example.com/api/clusters/list" = "https://example.com/api/" +:+ rest
    ∧ sent (@api sample_runtime ok_network "GET" "https://example.com/api/clusters/list"
              None ExpNone RT_dict ∅ sample_state).2 = [request]
    ∧ Request.url request = "https://example.com/api/" +:+ PyStr.lstrip "/" rest.
Proof.
  exact (proj1 (@api_url_resolution sample_runtime ok_network "GET"
                  "https://example.com/api/clusters/list" None ExpNone RT_dict ∅
                  sample_state eq_refl) eq_refl).
Defined.

(** C5 as stated fails twice over.  A path that continues the base URL with
    a ['/'] is not requested at the base URL followed by the rest: the
    ['/'] is dropped.  And a foreign absolute URL raises [ConnectionError],
    not [ValueError], when the host name does not resolve. *)
Lemma api_url_resolution_counterexample :
  (∃ request,
     sent (@api sample_runtime ok_network "GET" "https://example.com/api//clusters"
             None ExpNone RT_dict ∅ sample_state).2 = [request]
     ∧ Request.url request = "https://example.com/api/clusters"
     ∧ Request.url request ≠ ApiClient.url (this sample_state) +:+ "/clusters")
  ∧ (@api sample_runtime offline_network "GET" "http://elsewhere.example/x"
       None ExpNone RT_dict ∅ sample_state).1
    = Raise (ConnectionError "DNS lookup for hostname failed").
Proof.
  split; [|reflexivity].
  eexists. split; [reflexivity|]. split; [reflexivity|]. discriminate.
Qed.

Lemma api_payload_encoding_witness :
  ∃ request,
    sent (@api sample_runtime ok_network "GET" "clusters/list"
            (Some 1%positive) ExpNone RT_dict ∅ sample_state).2 = [request]
    ∧ Request.url request = "https://example.com/api/clusters/list"
    ∧ Request.data request = None
    ∧ ∃ params, Request.params request = Some params
                ∧ params !! "b" = Some (PyStr "true")
                ∧ params !! "a" = Some (PyInt 1).
Proof.
  pose proof (@api_payload_encoding sample_runtime ok_network "GET" "clusters/list"
                (Some 1%positive) ExpNone RT_dict ∅ sample_state) as [Hform Hissued].
  destruct (Hissued eq_refl "https://example.com/api/clusters/list" eq_refl)
    as (request & Hs & Hu).
  destruct (Hform request Hs) as (_ & Hq & _).
  destruct (Hq (or_introl eq_refl)) as (Hd & params & Hp & _ & Hb & Ho).
  exists request. split; [exact Hs|]. split; [exact Hu|]. split; [exact Hd|].
  exists params. split; [exact Hp|]. split.
  - apply (Hb "b" true). reflexivity.
  - apply (Ho "a" (PyInt 1)); [reflexivity|discriminate].
Defined.

Lemma api_returns_none_outside_2xx_witness :
  (@api sample_runtime not_found_network "GET" "clusters/get"
     None (ExpInt 404) RT_dict ∅ sample_state).1 = Return ResNone.
Proof.
  apply (proj2 (@api_returns_none_outside_2xx sample_runtime not_found_network "GET"
                  "clusters/get" None (ExpInt 404) RT_dict ∅ sample_state)
           eq_refl "https://example.com/api/clusters/get" [404]).
  - reflexivity.
  - reflexivity.
  - reflexivity.
  - left. reflexivity.
Defined.

(** C2 as stated fails: a 404 accepted through [_expected=404] with a JSON
    body and [_return_type=dict] yields [None], not the parsed body that
    deserialisation gives. *)
Lemma api_expected_404_returns_none :
  (@api sample_runtime not_found_network "GET" "clusters/get"
     None (ExpInt 404) RT_dict ∅ sample_state).1 = Return ResNone
  ∧ @deserialize sample_runtime
      (sample_response 404 "Not Found" forbidden_object_body) RT_dict
    = ResJson (PyDict {["message" := PyStr "Forbidden"]})
  ∧ (@api sample_runtime not_found_network "GET" "clusters/get"
       None (ExpInt 404) RT_dict ∅ sample_state).1
    ≠ Return (@deserialize sample_runtime
                (sample_response 404 "Not Found" forbidden_object_body) RT_dict).
Proof.
  split; [reflexivity|]. split; [reflexivity|]. discriminate.
Qed.

Lemma api_preserves_caller_data_witness :
  heap (@api sample_runtime ok_network "POST" "clusters/edit" (Some 1%positive)
          ExpNone RT_dict {["a" := PyInt 2]} sample_state).2 !! 1%positive
  = Some (<["a" := PyInt 1]> (<["b" := PyBool true]> ∅)).
Proof.
  exact (proj1 (@api_preserves_caller_data sample_runtime ok_network "POST"
                  "clusters/edit" 1%positive ExpNone RT_dict {["a" := PyInt 2]}
                  sample_state (<["a" := PyInt 1]> (<["b" := PyBool true]> ∅)) eq_refl)).
Defined.

(** ** The OAuth exchange of [DoceboRestClient] *)

Section DoceboProperties.
Context `{PyRuntime} `{Network}.

Lemma authenticate_run endpoint consumer_key consumer_secret username password log :
  let request := authenticate_request endpoint consumer_key consumer_secret
                   username password in
  let response := http_send request in
  authenticate endpoint consumer_key consumer_secret username password log =
  (if Response.status_code response =? 200 then
     match json_loads (Response.text response) with
     | None => Raise JSONDecodeError
     | Some (PyDict d) => Return (dict_get d "access_token" PyNone)
     | Some v => Raise (AttributeError (no_attribute_get v))
     end
   else
     Raise (AssertionError
              ("Expected the HTTP status code 200, found "
                 +:+ pretty (Response.status_code response) +:+ ": "
                 +:+ Response.text response)),
   (log ++ [request])%list).
Proof.
  unfold authenticate, authenticate_request, requests_post, mbind, mret, raise.
  simpl.
  destruct (Response.status_code _ =? 200); simpl; [|done].
  destruct (json_loads _) as [[]|]; done.
Qed.

(** C9. [authenticate] POSTs, to [endpoint + "/oauth2/token"], a form with
    [grant_type=password], [client_id], [client_secret], [username] and
    [password]; a response whose status is not 200 raises
    [AssertionError], and so does the construction of the client, which
    never completes; a 200 response whose body is a JSON object returns
    the object's ["access_token"] entry. *)
Theorem authenticate_token_exchange
    endpoint consumer_key consumer_secret username password log :
  let request := authenticate_request endpoint consumer_key consumer_secret
                   username password in
  let response := http_send request in
  let out := authenticate endpoint consumer_key consumer_secret username password log in
  out.2 = (log ++ [request])%list
  ∧ Request.method request = "POST"
  ∧ Request.url request = endpoint +:+ "/oauth2/token"
  ∧ (∃ payload,
       Request.form request = Some payload
       ∧ payload !! "grant_type" = Some (PyStr "password")
       ∧ payload !! "client_id" = Some (PyStr consumer_key)
       ∧ payload !! "client_secret" = Some (PyStr consumer_secret)
       ∧ payload !! "username" = Some (PyStr username)
       ∧ payload !! "password" = Some (of_optional password))
  ∧ (Response.status_code response ≠ 200 →
     (∃ msg, out.1 = Raise (AssertionError msg))
     ∧ ∀ throttle_seconds,
         ∃ msg, (DoceboRestClient_init (Some endpoint) throttle_seconds
                   (Some username) password (Some consumer_key)
                   (Some consumer_secret) log).1
                = Raise (AssertionError msg))
  ∧ (Response.status_code response = 200 →
     ∀ d, json_loads (Response.text response) = Some (PyDict d) →
          out.1 = Return (default PyNone (d !! "access_token"))).
Proof.
  intros request response out. subst out.
  rewrite authenticate_run. fold request. fold response. simpl.
  split; [done|]. split; [done|]. split; [done|]. split.
  { eexists. split; [reflexivity|]. unfold authenticate_payload.
    repeat split; by simplify_map_eq. }
  split.
  - intros Hne. apply Z.eqb_neq in Hne. rewrite Hne. split; [eauto|].
    intros throttle_seconds. unfold DoceboRestClient_init, mbind.
    rewrite authenticate_run. fold request. fold response. rewrite Hne. eauto.
  - intros He d Hj. apply Z.eqb_eq in He. rewrite He, Hj. done.
Qed.

End DoceboProperties.

Lemma authenticate_token_exchange_witness :
  (@authenticate sample_runtime token_network "https://docebo.example" "key" "secret"
     "user" (Some "pw") []).1 = Return (PyStr "abc")
  ∧ ∃ msg, (@DoceboRestClient_init sample_runtime unauthorized_network
              (Some "https://docebo.example") 0 (Some "user") (Some "pw") (Some "key")
              (Some "secret") []).1
           = Raise (AssertionError msg).
Proof.
  split.
  - exact (proj2 (proj2 (proj2 (proj2 (proj2
      (@authenticate_token_exchange sample_runtime token_network
         "https://docebo.example" "key" "secret" "user" (Some "pw") [])))))
      eq_refl {["access_token" := PyStr "abc"]} eq_refl).
  - apply (proj1 (proj2 (proj2 (proj2 (proj2
      (@authenticate_token_exchange sample_runtime unauthorized_network
         "https://docebo.example" "key" "secret" "user" (Some "pw") []))))));
      discriminate.
Defined.

(** The client a successful exchange builds holds the token as a bearer
    header. *)
Example DoceboRestClient_init_bearer :
  ∃ c, (@DoceboRestClient_init sample_runtime token_network
          (Some "https://docebo.example") 0 (Some "user") (Some "pw") (Some "key")
          (Some "secret") []).1 = Return c
       ∧ authorization c = Some "Bearer abc"
       ∧ ApiClient.url c = "https://docebo.example/".
Proof. eexists. split; [reflexivity|]. split; reflexivity. Qed.

(** ** Further behaviour of the constructors, on concrete inputs *)

(** C3 as stated fails: an explicit but empty header given together with
    a token is not passed through; the token is used. *)
Lemma ApiClient_init_empty_header :
  ∃ c, ApiClient_init "https://example.com" (Some "tok") None None (Some EmptyString)
         None 0 false = Return c
       ∧ authorization c = Some "Bearer tok"
       ∧ authorization c ≠ Some EmptyString.
Proof. eexists. split; [reflexivity|]. split; [reflexivity|discriminate]. Qed.

(** A child client joins its relative URL to the parent's and inherits the
    parent's header. *)
Example ApiClient_init_child :
  ∃ c, ApiClient_init "2.0/" None None None None (Some sample_client) 0 false = Return c
       ∧ ApiClient.url c = "https://example.com/api//2.0/"
       ∧ authorization c = Some "Bearer tok".
Proof. eexists. split; [reflexivity|]. split; reflexivity. Qed.

(** Without an HTTP error and without a message the constructor reads an
    attribute it never set. *)
Example DatabricksApiException_init_empty :
  @DatabricksApiException_init sample_runtime PyNone PyNone None
  = Raise (AttributeError "'DatabricksApiException' object has no attribute 'message'").
Proof. reflexivity. Qed.


(** * Further properties of the code *)

(** ** Where and how often [api] sends *)

Section ApiFurther.
Context `{PyRuntime} `{Network}.

Lemma lstrip_idempotent (c : ascii) (s : string) :
  PyStr.lstrip c (PyStr.lstrip c s) = PyStr.lstrip c s.
Proof.
  induction s as [|a s IH]; [done|]. simpl.
  destruct (Ascii.eqb a c) eqn:E; [done|]. simpl. by rewrite E.
Qed.

(** An accepted path resolves to the base URL followed by something
    without a leading ['/']. *)
Lemma resolve_url_return base p url :
  resolve_url base p = Return url →
  ∃ r, url = base +:+ PyStr.lstrip "/" r.
Proof.
  unfold resolve_url.
  destruct (PyStr.startswith base p); [|destruct (PyStr.startswith "http" p)];
    simpl; [| done |]; intros [= <-]; eauto.
Qed.

Lemma resolve_url_fixpoint base p url :
  resolve_url base p = Return url → resolve_url base url = Return url.
Proof.
  intros [r ->]%resolve_url_return.
  by rewrite resolve_url_own_prefix, lstrip_idempotent.
Qed.

(** X1. Every request [api] issues goes to a URL that starts with the
    client's base URL: a path never replaces the base. *)
Theorem api_request_under_base
    _http_method _endpoint_path _data _expected _return_type data st request :
  sent (api _http_method _endpoint_path _data _expected _return_type data st).2
  = (sent st ++ [request])%list →
  PyStr.startswith (ApiClient.url (this st)) (Request.url request) = true.
Proof.
  intros Hsent.
  destruct (api_sent _http_method _endpoint_path _data _expected _return_type data st)
    as [Hs | (url & _ & Hurl & Hs)]; rewrite Hs in Hsent.
  { by destruct (app_singleton_ne _ _ Hsent). }
  apply app_singleton_inv in Hsent as <-.
  destruct (api_request_url (this st) _http_method url
              (merged_payload (heap st) _data data)) as [-> _].
  apply resolve_url_return in Hurl as [r ->]. apply startswith_app.
Qed.

(** X2. The URL of a request can be fed back as the path: the same call
    with that URL as [_endpoint_path] issues the very same request. *)
Theorem api_requested_url_is_a_path
    _http_method _endpoint_path _data _expected _return_type data st request :
  sent (api _http_method _endpoint_path _data _expected _return_type data st).2
  = (sent st ++ [request])%list →
  sent (api _http_method (Request.url request) _data _expected _return_type data st).2
  = (sent st ++ [request])%list.
Proof.
  intros Hsent.
  destruct (api_sent _http_method _endpoint_path _data _expected _return_type data st)
    as [Hs | (url & Hdns & Hurl & Hs)]; rewrite Hs in Hsent.
  { by destruct (app_singleton_ne _ _ Hsent). }
  apply app_singleton_inv in Hsent as <-.
  destruct (api_request_url (this st) _http_method url
              (merged_payload (heap st) _data data)) as [-> _].
  by destruct (api_sends _http_method url _data _expected _return_type data st url
                 Hdns (resolve_url_fixpoint _ _ _ Hurl)).
Qed.


End ApiFurther.

Lemma api_request_under_base_witness :
  PyStr.startswith "https://example.com/api/" "https://example.com/api/clusters/list"
  = true.
Proof.
  exact (@api_request_under_base sample_runtime ok_network "GET" "/clusters/list"
           None ExpNone RT_dict ∅ sample_state
           (@api_request sample_client "GET" "https://example.com/api/clusters/list" ∅
              sample_runtime)
           eq_refl).
Defined.

Lemma api_requested_url_is_a_path_witness :
  sent (@api sample_runtime ok_network "GET" "https://example.com/api/clusters/list"
          None ExpNone RT_dict ∅ sample_state).2
  = [@api_request sample_client "GET" "https://example.com/api/clusters/list" ∅
       sample_runtime].
Proof.
  exact (@api_requested_url_is_a_path sample_runtime ok_network "GET" "/clusters/list"
           None ExpNone RT_dict ∅ sample_state
           (@api_request sample_client "GET" "https://example.com/api/clusters/list" ∅
              sample_runtime)
           eq_refl).
Defined.

(** ** What [api] returns and raises *)

Section ApiOutcome.
Context `{PyRuntime} `{Network}.

(** X4. A response with a status in [200, 300) never makes [api] raise,
    whatever [_expected] is (even a value of the wrong type) and whatever
    the body is: the result is the response, its text, its content, [None]
    or the parsed body as [_return_type] asks, and for [dict] with a body
    that is not JSON it is the dictionary whose entries ["_status"] and
    ["_response"] both hold the body text. *)
Theorem api_success_never_raises
    _http_method _endpoint_path _data _expected _return_type data st url :
  hostname_resolves (ApiClient.url (this st)) = true →
  resolve_url (ApiClient.url (this st)) _endpoint_path = Return url →
  let response :=
    http_send (api_request (this st) _http_method url
                 (merged_payload (heap st) _data data)) in
  is_2xx (Response.status_code response) = true →
  ∃ r,
    (api _http_method _endpoint_path _data _expected _return_type data st).1 = Return r
    ∧ match _return_type with
      | RT_Response => r = ResResponse response
      | RT_str => r = ResText (Response.text response)
      | RT_bytes => r = ResBytes (Response.content response)
      | RT_None | RT_other => r = ResNone
      | RT_dict =>
          match json_loads (Response.text response) with
          | Some v => r = ResJson v
          | None =>
              ∃ d, r = ResJson (PyDict d)
                   ∧ d !! "_status" = Some (PyStr (Response.text response))
                   ∧ d !! "_response" = Some (PyStr (Response.text response))
                   ∧ ∀ k, k ≠ "_status" → k ≠ "_response" → d !! k = None
          end
      end.
Proof.
  intros Hdns Hurl response H2.
  destruct (api_sends _http_method _endpoint_path _data _expected _return_type data
              st url Hdns Hurl) as [_ ->].
  fold response. rewrite raise_for_status_accepts by auto. rewrite H2.
  eexists. split; [reflexivity|].
  destruct _return_type; simpl; try done.
  destruct (json_loads (Response.text response)); [done|].
  eexists. split; [reflexivity|]. split; [by simplify_map_eq|].
  split; [by simplify_map_eq|]. intros k H1 H3. by simplify_map_eq.
Qed.

(** X5. An [_expected] that cannot be read (a string that is not a number,
    or an object that is neither a number nor a container) is only noticed
    after the request has been sent, and only when the status is outside
    [200, 300): the call then raises [ValueError], the request having gone
    out. *)
Theorem api_bad_expected_raises_after_sending
    _http_method _endpoint_path _data _expected _return_type data st url e :
  hostname_resolves (ApiClient.url (this st)) = true →
  resolve_url (ApiClient.url (this st)) _endpoint_path = Return url →
  expected_codes _expected = Raise e →
  let request :=
    api_request (this st) _http_method url (merged_payload (heap st) _data data) in
  let out := api _http_method _endpoint_path _data _expected _return_type data st in
  is_2xx (Response.status_code (http_send request)) = false →
  sent out.2 = (sent st ++ [request])%list
  ∧ out.1 = Raise e
  ∧ ∃ msg, e = ValueError msg.
Proof.
  intros Hdns Hurl He request out H2. subst out.
  destruct (api_sends _http_method _endpoint_path _data _expected _return_type data
              st url Hdns Hurl) as [Hs Hr].
  fold request in Hs, Hr. split; [done|]. rewrite Hr.
  unfold _raise_for_status. rewrite H2, He. simpl. split; [done|].
  unfold expected_codes in He.
  destruct _expected as [|s|n|codes|ty]; try done.
  - destruct (py_int s); [done|]. injection He as <-. eauto.
  - injection He as <-. eauto.
Qed.

(** X7. The class named in the error message and the type of the exception
    agree: the message says ["Client Error"] exactly for the statuses in
    [400, 500), for which the structured exception is raised with the HTTP
    error (and the response in it) as its cause. *)
Theorem raise_for_status_client_error_class response expected codes :
  is_2xx (Response.status_code response) = false →
  expected_codes expected = Return codes →
  ¬ In (Response.status_code response) codes →
  (error_type (Response.status_code response) = "Client Error"
   ↔ is_4xx (Response.status_code response) = true)
  ∧ (∀ exc, _raise_for_status response expected = Raise (DatabricksApiExceptionExn exc) →
       is_4xx (Response.status_code response) = true
       ∧ DatabricksApiException.cause exc
         = Some (HTTPError.new (http_error_msg response) response)
       ∧ DatabricksApiException.response exc = Some response)
  ∧ (∀ e, _raise_for_status response expected = Raise (HTTPErrorExn e) →
       is_4xx (Response.status_code response) = false
       ∧ e = HTTPError.new (http_error_msg response) response).
Proof.
  intros H2 Hc Hin. split; [|split].
  - unfold error_type, is_4xx.
    destruct ((100 <=? _) && (_ <? 200)) eqn:E1.
    { split; [done|]. lia. }
    destruct ((300 <=? _) && (_ <? 400)) eqn:E3.
    { split; [done|]. lia. }
    destruct ((400 <=? _) && (_ <? 500)) eqn:E4; [done|].
    destruct ((500 <=? _) && (_ <? 600)); done.
  - intros exc. unfold _raise_for_status. rewrite H2, Hc. cbn [result_bind].
    destruct (existsb _ codes); [done|].
    destruct (is_4xx _); [|done]. intros Hexc. split; [done|].
    unfold DatabricksApiException_init in Hexc.
    destruct (json_loads _) as [[]|]; simpl in Hexc; by simplify_eq.
  - intros e. unfold _raise_for_status. rewrite H2, Hc. cbn [result_bind].
    destruct (existsb _ codes); [done|].
    destruct (is_4xx _).
    + unfold DatabricksApiException_init.
      destruct (json_loads _) as [[]|]; simpl; done.
    + by intros [= <-].
Qed.

End ApiOutcome.

Lemma api_success_never_raises_witness :
  ∃ r, (@api sample_runtime text_network "GET" "ping" None (ExpOther "float") RT_dict ∅
          sample_state).1 = Return r
       ∧ ∃ d, r = ResJson (PyDict d)
              ∧ d !! "_status" = Some (PyStr "pong")
              ∧ d !! "_response" = Some (PyStr "pong")
              ∧ ∀ k, k ≠ "_status" → k ≠ "_response" → d !! k = None.
Proof.
  exact (@api_success_never_raises sample_runtime text_network "GET" "ping" None
           (ExpOther "float") RT_dict ∅ sample_state "https://example.com/api/ping"
           eq_refl eq_refl eq_refl).
Defined.

Lemma api_bad_expected_raises_after_sending_witness :
  ∃ request,
    sent (@api sample_runtime failing_network "DELETE" "clusters/1" None
            (ExpOther "<class 'float'>") RT_dict ∅ sample_state).2 = [request]
    ∧ Request.method request = "DELETE"
    ∧ ∃ msg, (@api sample_runtime failing_network "DELETE" "clusters/1" None
                (ExpOther "<class 'float'>") RT_dict ∅ sample_state).1
             = Raise (ValueError msg).
Proof.
  destruct (@api_bad_expected_raises_after_sending sample_runtime failing_network
              "DELETE" "clusters/1" None (ExpOther "<class 'float'>") RT_dict ∅
              sample_state "https://example.com/api/clusters/1" _
              eq_refl eq_refl eq_refl eq_refl)
    as (Hs & Hr & msg & Hmsg).
  eexists. split; [exact Hs|]. split; [reflexivity|].
  exists msg. rewrite Hr. by rewrite Hmsg.
Defined.

Lemma raise_for_status_client_error_class_witness :
  error_type 403 = "Client Error".
Proof.
  refine (proj2 (proj1
    (@raise_for_status_client_error_class sample_runtime
       (sample_response 403 "Forbidden" forbidden_object_body) ExpNone []
       eq_refl eq_refl _)) eq_refl).
  intros [].
Defined.

(** ** Failure before sending, and throttling *)

Section ApiTiming.
Context `{PyRuntime} `{Network}.

(** The clock and the client after the throttle. *)
Lemma throttle_calls_time st :
  let st' := (_throttle_calls st).2 in
  (ApiClient.throttle_seconds (this st) ≤ 0 → st' = st)
  ∧ (0 < ApiClient.throttle_seconds (this st) →
     clock st' = Z.max (clock st)
                   (ApiClient._last_request_timestamp (this st)
                    + ApiClient.throttle_seconds (this st))
     ∧ this st' = ApiClient.set_last_request_timestamp (clock st') (this st)).
Proof.
  unfold _throttle_calls. split.
  - intros Hle. apply Z.leb_le in Hle. by rewrite Hle.
  - intros Hlt. apply Z.leb_gt in Hlt. rewrite Hlt. simpl.
    split; [|done].
    destruct (0 <? _) eqn:E; [apply Z.ltb_lt in E|apply Z.ltb_ge in E]; lia.
Qed.

Lemma api_time _http_method _endpoint_path _data _expected _return_type data st :
  hostname_resolves (ApiClient.url (this st)) = true →
  let out := api _http_method _endpoint_path _data _expected _return_type data st in
  (ApiClient.throttle_seconds (this st) ≤ 0 →
   this out.2 = this st ∧ clock out.2 = clock st)
  ∧ (0 < ApiClient.throttle_seconds (this st) →
     clock out.2 = Z.max (clock st)
                     (ApiClient._last_request_timestamp (this st)
                      + ApiClient.throttle_seconds (this st))
     ∧ this out.2 = ApiClient.set_last_request_timestamp (clock out.2) (this st)).
Proof.
  intros Hdns out. subst out. rewrite api_run.
  destruct (prepare_payload (heap st) _data data) as [l h1]. simpl. rewrite Hdns.
  pose proof (throttle_calls_time (mkState (this st) h1 (clock st) (sent st))) as Ht.
  simpl in Ht. destruct Ht as [Hle Hlt].
  assert (∀ x : result ApiResult * State,
            clock x.2 = clock (_throttle_calls (mkState (this st) h1 (clock st) (sent st))).2 →
            this x.2 = this (_throttle_calls (mkState (this st) h1 (clock st) (sent st))).2 →
            (ApiClient.throttle_seconds (this st) ≤ 0 →
             this x.2 = this st ∧ clock x.2 = clock st)
            ∧ (0 < ApiClient.throttle_seconds (this st) →
               clock x.2 = Z.max (clock st)
                             (ApiClient._last_request_timestamp (this st)
                              + ApiClient.throttle_seconds (this st))
               ∧ this x.2 = ApiClient.set_last_request_timestamp (clock x.2) (this st)))
    as Hall.
  { intros x Hc Ht. rewrite Hc, Ht. split.
    - intros Hx. by rewrite (Hle Hx).
    - intros Hx. by destruct (Hlt Hx). }
  destruct (resolve_url _ _); [|by apply Hall].
  destruct (_raise_for_status _ _); by apply Hall.
Qed.

(** X8. When the host name does not resolve, [api] raises
    [ConnectionError] before anything else happens to the client: no
    request is sent, the throttle does not run (clock and last-request
    time are as before), and the dictionaries that were on the heap are
    unchanged. *)
Theorem api_offline_changes_nothing
    _http_method _endpoint_path _data _expected _return_type data st :
  hostname_resolves (ApiClient.url (this st)) = false →
  let out := api _http_method _endpoint_path _data _expected _return_type data st in
  out.1 = Raise (ConnectionError "DNS lookup for hostname failed")
  ∧ sent out.2 = sent st
  ∧ this out.2 = this st
  ∧ clock out.2 = clock st
  ∧ ∀ l d, heap st !! l = Some d → heap out.2 !! l = Some d.
Proof.
  intros Hdns out. subst out.
  destruct (api_offline _http_method _endpoint_path _data _expected _return_type
              data st Hdns) as [Hr Hs].
  split; [done|]. split; [done|].
  assert (this (api _http_method _endpoint_path _data _expected _return_type data st).2
          = this st
          ∧ clock (api _http_method _endpoint_path _data _expected _return_type data st).2
            = clock st) as [Ht Hc].
  { rewrite api_run.
    destruct (prepare_payload (heap st) _data data) as [l h1]. simpl.
    by rewrite Hdns. }
  split; [done|]. split; [done|].
  intros l d Hl. rewrite api_heap. by apply prepare_payload_frame.
Qed.

(** X9. Throttling, with time counted in ticks: on a client with a positive
    [throttle_seconds], a call whose host resolves leaves the clock at the
    later of the current time and the last request time plus
    [throttle_seconds], and records that time as the new last request
    time; so any later call on the client finishes its wait at least
    [throttle_seconds] after the first one did. *)
Theorem api_calls_are_spaced
    m1 p1 d1 e1 r1 k1 m2 p2 d2 e2 r2 k2 st st' :
  hostname_resolves (ApiClient.url (this st)) = true →
  0 < ApiClient.throttle_seconds (this st) →
  let out1 := api m1 p1 d1 e1 r1 k1 st in
  this st' = this out1.2 →
  clock out1.2 ≤ clock st' →
  let out2 := api m2 p2 d2 e2 r2 k2 st' in
  clock out1.2 = Z.max (clock st)
                   (ApiClient._last_request_timestamp (this st)
                    + ApiClient.throttle_seconds (this st))
  ∧ ApiClient._last_request_timestamp (this out1.2) = clock out1.2
  ∧ clock out1.2 + ApiClient.throttle_seconds (this st) ≤ clock out2.2.
Proof.
  intros Hdns Hpos out1 Hthis Hclock out2. subst out1 out2.
  destruct (api_time m1 p1 d1 e1 r1 k1 st Hdns) as [_ H1].
  destruct (H1 Hpos) as [Hc1 Ht1].
  split; [done|]. rewrite Ht1 in *. simpl. split; [done|].
  assert (hostname_resolves (ApiClient.url (this st')) = true) as Hdns'.
  { by rewrite Hthis. }
  assert (0 < ApiClient.throttle_seconds (this st')) as Hpos'.
  { by rewrite Hthis. }
  destruct (api_time m2 p2 d2 e2 r2 k2 st' Hdns') as [_ H2].
  destruct (H2 Hpos') as [Hc2 _]. rewrite Hc2, Hthis. simpl. lia.
Qed.



End ApiTiming.

Lemma api_offline_changes_nothing_witness :
  (@api sample_runtime offline_network "GET" "clusters/list" (Some 1%positive) ExpNone
     RT_dict {["a" := PyInt 2]} sample_state).1
  = Raise (ConnectionError "DNS lookup for hostname failed").
Proof.
  exact (proj1 (@api_offline_changes_nothing sample_runtime offline_network "GET"
                  "clusters/list" (Some 1%positive) ExpNone RT_dict {["a" := PyInt 2]}
                  sample_state eq_refl)).
Defined.

Lemma api_calls_are_spaced_witness :
  clock (@api sample_runtime ok_network "GET" "a" None ExpNone RT_dict ∅
           throttled_state).2 = 10
  ∧ 10 + 10 ≤
    clock (@api sample_runtime ok_network "GET" "b" None ExpNone RT_dict ∅
             (@api sample_runtime ok_network "GET" "a" None ExpNone RT_dict ∅
                throttled_state).2).2.
Proof.
  destruct (@api_calls_are_spaced sample_runtime ok_network
              "GET" "a" None ExpNone RT_dict ∅ "GET" "b" None ExpNone RT_dict ∅
              throttled_state
              (@api sample_runtime ok_network "GET" "a" None ExpNone RT_dict ∅
                 throttled_state).2
              eq_refl eq_refl eq_refl) as (Hc & _ & Hs).
  - vm_compute. discriminate.
  - split; [exact Hc|exact Hs].
Defined.


(** ** The exception without an HTTP error, and child clients *)

Section ConstructorsFurther.
Context `{PyRuntime}.

(** X11. A [DatabricksApiException] built without an HTTP error needs a
    message: with one it carries the message (also as its body), the given
    [http_code], the error code [-1] and no method, endpoint or cause; with
    none ([None] or an empty string) the constructor itself fails with
    [AttributeError], because it reads [self.message] without having set
    it. *)
Theorem DatabricksApiException_without_http_error message http_code :
  (py_truthy message = true →
   ∃ exc, DatabricksApiException_init message http_code None = Return exc
          ∧ DatabricksApiException.message exc = message
          ∧ DatabricksApiException.body exc = message
          ∧ DatabricksApiException.http_code exc = http_code
          ∧ DatabricksApiException.error_code exc = PyInt (-1)
          ∧ DatabricksApiException.method exc = PyNone
          ∧ DatabricksApiException.endpoint exc = PyNone
          ∧ DatabricksApiException.cause exc = None
          ∧ DatabricksApiException.args exc
            = [PyNone; PyNone; http_code; PyInt (-1); message])
  ∧ (py_truthy message = false →
     DatabricksApiException_init message http_code None
     = Raise (AttributeError
                "'DatabricksApiException' object has no attribute 'message'")).
Proof.
  unfold DatabricksApiException_init. split; intros ->; [|done].
  eexists. split; [reflexivity|]. simpl. done.
Qed.

End ConstructorsFurther.

Lemma DatabricksApiException_without_http_error_witness :
  @DatabricksApiException_init sample_runtime (PyStr EmptyString) (PyInt 404) None
  = Raise (AttributeError "'DatabricksApiException' object has no attribute 'message'").
Proof.
  exact (proj2 (@DatabricksApiException_without_http_error sample_runtime
                  (PyStr EmptyString) (PyInt 404)) eq_refl).
Defined.

Section ChildClient.

Lemma rstrip_not_suffix (c : ascii) (s : string) :
  PyStr.endswith (String c EmptyString) (PyStr.rstrip c s) = false.
Proof.
  induction s as [|a s IH]; [done|]. simpl.
  destruct (PyStr.rstrip c s) as [|b r].
  - destruct (Ascii.eqb a c) eqn:E; [done|].
    rewrite endswith_char_cons. simpl. by rewrite Ascii.eqb_sym, E.
  - rewrite endswith_char_cons, IH. simpl. by rewrite andb_false_r.
Qed.

Lemma endswith_app_nonempty (c : ascii) (s t : string) :
  t ≠ EmptyString →
  PyStr.endswith (String c EmptyString) (s +:+ t)
  = PyStr.endswith (String c EmptyString) t.
Proof.
  intros Ht. induction s as [|a s IH]; [done|].
  rewrite app_cons, endswith_char_cons, IH.
  destruct (s +:+ t) as [|b u] eqn:E.
  - destruct s; [by destruct Ht|done].
  - simpl. by rewrite andb_false_r.
Qed.

(** X12. A child client built with a relative URL (one without ["://"])
    stores the parent's URL without its leading ['/'] characters, a ['/'],
    the relative URL without its trailing ['/'] characters, and one final
    ['/']: whatever the relative URL ended with, the stored URL then ends
    with exactly one ['/'].  (A parent URL that ends with ['/'], as every
    constructed one does, so meets a second ['/'] at the join.)  A
    relative URL made of ['/'] characters only, or empty, stores the
    parent's URL followed by ['/']. *)
Theorem ApiClient_init_child_url
    url token user password authorization_header parent throttle_seconds verbose c :
  PyStr.contains "://" url = false →
  ApiClient_init url token user password authorization_header (Some parent)
    throttle_seconds verbose = Return c →
  let stem := PyStr.lstrip "/" (ApiClient.url parent) in
  (PyStr.rstrip "/" url ≠ EmptyString →
   ApiClient.url c = (stem +:+ "/" +:+ PyStr.rstrip "/" url) +:+ "/"
   ∧ PyStr.trailing "/" (ApiClient.url c) = 1%nat)
  ∧ (PyStr.rstrip "/" url = EmptyString → ApiClient.url c = stem +:+ "/").
Proof.
  intros Hrel Hc stem. subst stem.
  apply ApiClient_init_returns in Hc as (h & _ & ->). simpl.
  unfold joined_url. rewrite Hrel. simpl. unfold with_trailing_slash.
  split.
  - intros Hne.
    assert (PyStr.endswith "/"
              (PyStr.lstrip "/" (ApiClient.url parent) +:+ "/" +:+ PyStr.rstrip "/" url)
            = false) as Hends.
    { rewrite endswith_app_nonempty by (by destruct (PyStr.rstrip "/" url)).
      rewrite (endswith_app_nonempty "/" "/" _ Hne). apply rstrip_not_suffix. }
    rewrite Hends. simpl. split; [done|].
    by rewrite trailing_app_char, (trailing_no_suffix _ _ Hends).
  - intros ->.
    replace ("/" +:+ EmptyString) with "/" by reflexivity.
    by rewrite endswith_app_char.
Qed.

End ChildClient.

Lemma ApiClient_init_child_url_witness :
  ∃ c, ApiClient_init "2.0//" None None None None (Some sample_client) 0 false = Return c
       ∧ ApiClient.url c = "https://example.com/api//2.0/"
       ∧ PyStr.trailing "/" (ApiClient.url c) = 1%nat.
Proof.
  eexists. split; [reflexivity|].
  apply (proj1 (ApiClient_init_child_url "2.0//" None None None None sample_client
                  0 false _ eq_refl eq_refl)).
  discriminate.
Defined.

(** ** The Docebo client *)

Section DoceboFurther.
Context `{PyRuntime} `{Network}.

(** X13. [DoceboRestClient.__init__] checks its parameters before it talks
    to the server: without an endpoint, a username, a consumer key or a
    consumer secret it raises [AssertionError] and no request is sent (the
    endpoint is checked first).  The password is not checked: without one
    the token request goes out with [password] set to [None]. *)
Theorem DoceboRestClient_init_checks_parameters
    endpoint throttle_seconds username password consumer_key consumer_secret log :
  let out := DoceboRestClient_init endpoint throttle_seconds username password
               consumer_key consumer_secret log in
  (endpoint = None ∨ username = None ∨ consumer_key = None ∨ consumer_secret = None →
   (∃ msg, out.1 = Raise (AssertionError msg)) ∧ out.2 = log)
  ∧ (endpoint = None → out.1 = Raise (must_be_specified "endpoint"))
  ∧ (∀ e u k s,
       endpoint = Some e → username = Some u → consumer_key = Some k →
       consumer_secret = Some s → password = None →
       ∃ request payload,
         out.2 = (log ++ [request])%list
         ∧ Request.form request = Some payload
         ∧ payload !! "password" = Some PyNone).
Proof.
  intros out. subst out. split; [|split].
  - intros Hmiss. unfold DoceboRestClient_init, must_be_specified, raise.
    destruct endpoint; [|by eauto].
    destruct username; [|by eauto].
    destruct consumer_key; [|by eauto].
    destruct consumer_secret; [|by eauto].
    by destruct Hmiss as [?|[?|[?|?]]].
  - by intros ->.
  - intros e u k s -> -> -> -> ->. unfold DoceboRestClient_init, mbind.
    rewrite authenticate_run. simpl.
    exists (authenticate_request e k s u None). eexists.
    split; [|split; [reflexivity|]].
    + by destruct (_ =? 200); [destruct (json_loads _) as [[]|]|].
    + unfold authenticate_payload. by simplify_map_eq.
Qed.

(** X14. When the token exchange answers 200 with a JSON object, the
    construction succeeds after exactly that one request; the client has
    the endpoint with a trailing ['/'] as its URL and ["Bearer "] followed
    by the object's ["access_token"] entry as its authorization header.  An
    object without that entry is not an error: the header is then
    ["Bearer None"]. *)
Theorem DoceboRestClient_init_bearer_token
    endpoint throttle_seconds username password consumer_key consumer_secret log d :
  let request := authenticate_request endpoint consumer_key consumer_secret
                   username password in
  Response.status_code (http_send request) = 200 →
  json_loads (Response.text (http_send request)) = Some (PyDict d) →
  ∃ c,
    DoceboRestClient_init (Some endpoint) throttle_seconds (Some username) password
      (Some consumer_key) (Some consumer_secret) log
    = (Return c, (log ++ [request])%list)
    ∧ ApiClient.url c = with_trailing_slash endpoint
    ∧ ApiClient.throttle_seconds c = throttle_seconds
    ∧ (∀ token, d !! "access_token" = Some (PyStr token) →
                authorization c = Some ("Bearer " +:+ token))
    ∧ (d !! "access_token" = None → authorization c = Some "Bearer None").
Proof.
  intros request Hst Hj. unfold DoceboRestClient_init, mbind.
  rewrite authenticate_run. fold request. rewrite Hst, Hj. simpl.
  unfold lift.
  set (header := "Bearer " +:+ format_value (dict_get d "access_token" PyNone)).
  eexists. split; [reflexivity|].
  simpl. split; [done|]. split; [done|]. rewrite authorization_init.
  subst header. unfold dict_get. split.
  - by intros token ->.
  - by intros ->.
Qed.

(** X15. [from_environ] looks at the environment only for the arguments
    that are missing or empty: two environments that agree on the
    [DOCEBO_] variables of those arguments give the same result, so an
    argument that is given and not empty is used whatever its variable
    holds.  With no argument at all everything is taken from the five
    variables, and with neither an endpoint argument nor [DOCEBO_ENDPOINT]
    the construction raises [AssertionError] and sends nothing. *)
Theorem from_environ_precedence
    environ environ' endpoint username password consumer_key consumer_secret log :
  ((str_truthy endpoint = false →
    environ !! "DOCEBO_ENDPOINT" = environ' !! "DOCEBO_ENDPOINT") →
   (str_truthy username = false →
    environ !! "DOCEBO_USERNAME" = environ' !! "DOCEBO_USERNAME") →
   (str_truthy password = false →
    environ !! "DOCEBO_PASSWORD" = environ' !! "DOCEBO_PASSWORD") →
   (str_truthy consumer_key = false →
    environ !! "DOCEBO_CONSUMER_KEY" = environ' !! "DOCEBO_CONSUMER_KEY") →
   (str_truthy consumer_secret = false →
    environ !! "DOCEBO_CONSUMER_SECRET" = environ' !! "DOCEBO_CONSUMER_SECRET") →
   from_environ environ endpoint username password consumer_key consumer_secret log
   = from_environ environ' endpoint username password consumer_key consumer_secret log)
  ∧ from_environ environ None None None None None log
    = DoceboRestClient_init (environ !! "DOCEBO_ENDPOINT") 0
        (environ !! "DOCEBO_USERNAME") (environ !! "DOCEBO_PASSWORD")
        (environ !! "DOCEBO_CONSUMER_KEY") (environ !! "DOCEBO_CONSUMER_SECRET") log
  ∧ (str_truthy endpoint = false → environ !! "DOCEBO_ENDPOINT" = None →
     from_environ environ endpoint username password consumer_key consumer_secret log
     = (Raise (must_be_specified "endpoint"), log)).
Proof.
  unfold from_environ, or_else. split; [|split].
  - intros He Hu Hp Hk Hs.
    destruct (str_truthy endpoint); [|rewrite (He eq_refl)];
      (destruct (str_truthy username); [|rewrite (Hu eq_refl)]);
      (destruct (str_truthy password); [|rewrite (Hp eq_refl)]);
      (destruct (str_truthy consumer_key); [|rewrite (Hk eq_refl)]);
      (destruct (str_truthy consumer_secret); [|rewrite (Hs eq_refl)]);
      reflexivity.
  - done.
  - by intros -> ->.
Qed.

End DoceboFurther.

Lemma DoceboRestClient_init_checks_parameters_witness :
  (∃ msg, (@DoceboRestClient_init sample_runtime token_network
             (Some "https://docebo.example") 0 (Some "user") (Some "pw") None
             (Some "secret") []).1 = Raise (AssertionError msg))
  ∧ (@DoceboRestClient_init sample_runtime token_network
       (Some "https://docebo.example") 0 (Some "user") (Some "pw") None
       (Some "secret") []).2 = [].
Proof.
  apply (proj1 (@DoceboRestClient_init_checks_parameters sample_runtime token_network
                  (Some "https://docebo.example") 0 (Some "user") (Some "pw") None
                  (Some "secret") [])).
  right. right. left. reflexivity.
Defined.

Lemma DoceboRestClient_init_bearer_token_witness :
  ∃ c,
    @DoceboRestClient_init sample_runtime token_network (Some "https://docebo.example")
      0 (Some "user") (Some "pw") (Some "key") (Some "secret") []
    = (Return c,
       [@authenticate_request "https://docebo.example" "key" "secret" "user" (Some "pw")])
    ∧ authorization c = Some "Bearer abc".
Proof.
  destruct (@DoceboRestClient_init_bearer_token sample_runtime token_network
              "https://docebo.example" 0 "user" (Some "pw") "key" "secret" []
              {["access_token" := PyStr "abc"]} eq_refl eq_refl)
    as (c & Hc & _ & _ & Htok & _).
  exists c. split; [exact Hc|]. apply Htok. reflexivity.
Defined.

Lemma from_environ_precedence_witness :
  @from_environ sample_runtime token_network
    {["DOCEBO_USERNAME" := "user"]} None None None None None []
  = (Raise (must_be_specified "endpoint"), []).
Proof.
  apply (proj2 (proj2 (@from_environ_precedence sample_runtime token_network
                         {["DOCEBO_USERNAME" := "user"]} ∅
                         None None None None None []))).
  - reflexivity.
  - reflexivity.
Defined.

(** ** The convenience methods *)

Section ConvenienceFurther.
Context `{PyRuntime} `{Network}.

(** The state in which a [simple_] method calls [api]: the keyword
    arguments sit in a dictionary of their own. *)
Lemma simple_call_run m url expected data st :
  (let! d := new_dict data in api m url (Some d) expected RT_dict ∅) st
  = api m url (Some (fresh (dom (heap st)))) expected RT_dict ∅
      (mkState (this st) (<[fresh (dom (heap st)) := data]> (heap st))
         (clock st) (sent st)).
Proof. reflexivity. Qed.

Lemma simple_call_request m url expected data st request :
  sent ((let! d := new_dict data in api m url (Some d) expected RT_dict ∅) st).2
  = (sent st ++ [request])%list →
  ∃ u, request = api_request (this st) m u data.
Proof.
  rewrite simple_call_run. intros Hsent.
  match type of Hsent with
  | sent (api _ _ ?l _ _ _ ?st').2 = _ =>
      destruct (api_sent m url l expected RT_dict ∅ st') as [Hs | (u & _ & _ & Hs)]
  end; rewrite Hs in Hsent; simpl in Hsent.
  { by destruct (app_singleton_ne _ _ Hsent). }
  apply app_singleton_inv in Hsent as <-.
  exists u. unfold merged_payload. simpl.
  by rewrite heap_dict_insert, (left_id_L ∅ (∪)).
Qed.

(** X16. The five [simple_] methods send their keyword arguments as the
    payload and differ in the HTTP method only: [simple_get] sends them as
    query parameters (booleans as ["true"]/["false"]) without a body;
    [simple_post], [simple_put], [simple_delete] and [simple_patch] send
    their JSON serialisation as the body, without query parameters. *)
Theorem simple_methods_payload url expected data st request :
  (sent (simple_get url expected data st).2 = (sent st ++ [request])%list →
   Request.method request = "GET"
   ∧ Request.params request = Some (query_value <$> data)
   ∧ Request.data request = None)
  ∧ (sent (simple_post url expected data st).2 = (sent st ++ [request])%list →
     sends_json_body "POST" data request)
  ∧ (sent (simple_put url expected data st).2 = (sent st ++ [request])%list →
     sends_json_body "PUT" data request)
  ∧ (sent (simple_delete url expected data st).2 = (sent st ++ [request])%list →
     sends_json_body "DELETE" data request)
  ∧ (sent (simple_patch url expected data st).2 = (sent st ++ [request])%list →
     sends_json_body "PATCH" data request).
Proof.
  split; [|split; [|split; [|split]]];
    intros [u ->]%simple_call_request; unfold sends_json_body; done.
Qed.

(** X17. [api_raw] hands back the response object itself when the status
    is in [200, 300), and [None], not a response, when a status outside
    that range was accepted through [_expected]. *)
Theorem api_raw_result _http_method _endpoint_path _data _expected st url :
  hostname_resolves (ApiClient.url (this st)) = true →
  resolve_url (ApiClient.url (this st)) _endpoint_path = Return url →
  let response :=
    http_send (api_request (this st) _http_method url
                 (merged_payload (heap st) _data ∅)) in
  let out := api_raw _http_method _endpoint_path _data _expected st in
  (is_2xx (Response.status_code response) = true →
   out.1 = Return (ResResponse response))
  ∧ (is_2xx (Response.status_code response) = false →
     ∀ codes, expected_codes _expected = Return codes →
              In (Response.status_code response) codes →
              out.1 = Return ResNone).
Proof.
  intros Hdns Hurl response out. subst out. unfold api_raw.
  destruct (api_sends _http_method _endpoint_path _data _expected RT_Response ∅
              st url Hdns Hurl) as [_ ->].
  fold response. split.
  - intros H2. rewrite raise_for_status_accepts by auto. by rewrite H2.
  - intros H2 codes Hc Hin. rewrite raise_for_status_accepts by eauto. by rewrite H2.
Qed.

(** X6. No boolean reaches the query string: in the parameters of a
    request that [api] issues, no value is a [bool]. *)
Theorem api_query_has_no_booleans
    _http_method _endpoint_path _data _expected _return_type data st request params :
  sent (api _http_method _endpoint_path _data _expected _return_type data st).2
  = (sent st ++ [request])%list →
  Request.params request = Some params →
  ∀ k v, params !! k = Some v → ∀ b, v ≠ PyBool b.
Proof.
  intros Hsent Hp k v Hk b ->.
  destruct (api_sent _http_method _endpoint_path _data _expected _return_type data st)
    as [Hs | (u & _ & _ & Hs)]; rewrite Hs in Hsent.
  { by destruct (app_singleton_ne _ _ Hsent). }
  apply app_singleton_inv in Hsent as <-.
  unfold api_request in Hp.
  destruct (is_query_method _http_method); simpl in Hp; [|done].
  injection Hp as <-. rewrite lookup_fmap in Hk.
  destruct (merged_payload (heap st) _data data !! k) as [[]|]; done.
Qed.

End ConvenienceFurther.

Lemma simple_methods_payload_witness :
  @sends_json_body "DELETE" {["force" := PyBool true]}
    (@api_request sample_client "DELETE" "https://example.com/api/clusters/1"
       {["force" := PyBool true]} sample_runtime) sample_runtime.
Proof.
  apply (proj1 (proj2 (proj2 (proj2
    (@simple_methods_payload sample_runtime ok_network "clusters/1"
       default_expected {["force" := PyBool true]} sample_state
       (@api_request sample_client "DELETE" "https://example.com/api/clusters/1"
          {["force" := PyBool true]} sample_runtime)))))).
  reflexivity.
Defined.

Lemma api_raw_result_witness :
  (@api_raw sample_runtime not_found_network "GET" "clusters/get" None (ExpInt 404)
     sample_state).1 = Return ResNone.
Proof.
  apply (proj2 (@api_raw_result sample_runtime not_found_network "GET" "clusters/get"
                  None (ExpInt 404) sample_state "https://example.com/api/clusters/get"
                  eq_refl eq_refl) eq_refl [404] eq_refl).
  left. reflexivity.
Defined.

Lemma api_query_has_no_booleans_witness :
  (query_value <$> heap_dict (heap sample_state) 1%positive) !! "b"
  = Some (PyStr "true")
  ∧ PyStr "true" ≠ PyBool true.
Proof.
  split; [reflexivity|].
  exact (@api_query_has_no_booleans sample_runtime ok_network "GET" "clusters/list"
           (Some 1%positive) ExpNone RT_dict ∅ sample_state
           (@api_request sample_client "GET" "https://example.com/api/clusters/list"
              (heap_dict (heap sample_state) 1%positive) sample_runtime)
           (query_value <$> heap_dict (heap sample_state) 1%positive)
           eq_refl eq_refl "b" (PyStr "true") eq_refl true).
Defined.

(** ** Inheritance and the unthrottled client *)

Section Inheritance.

(** X18. A client that the constructor built can always serve as a parent:
    a child given no header, no token and not both a user and a password
    is constructed and has the parent's authorization header. *)
Theorem ApiClient_init_child_inherits
    purl ptoken puser ppassword pheader pclient pthrottle pverbose parent
    url user password throttle_seconds verbose :
  ApiClient_init purl ptoken puser ppassword pheader pclient pthrottle pverbose
  = Return parent →
  user = None ∨ password = None →
  ∃ c h, ApiClient_init url None user password None (Some parent)
           throttle_seconds verbose = Return c
         ∧ authorization parent = Some h
         ∧ authorization c = Some h.
Proof.
  intros Hp Hup. apply ApiClient_init_returns in Hp as (h & _ & ->).
  assert (credentials_header None user password None
            (Some (ApiClient.mk (with_trailing_slash (joined_url pclient purl)) puser
                     pthrottle 300 5 0 pverbose
                     (Session.mk
                        (<["Authorization" := h]> (<["Content-Type" := "text/json"]> ∅))
                        ["http://"; "https://"] 5)))
          = Return h) as Hh.
  { unfold credentials_header. simpl. rewrite lookup_insert_eq.
    destruct Hup as [-> | ->]; [|destruct user]; done. }
  destruct (ApiClient_init_header url _ _ _ _ _ throttle_seconds verbose h Hh)
    as (c & Hc & Ha).
  exists c, h. split; [done|]. split; [apply authorization_init|done].
Qed.

End Inheritance.

Lemma ApiClient_init_child_inherits_witness :
  ∃ c h, ApiClient_init "2.0" None (Some "alice") None None (Some sample_client) 0 false
         = Return c
         ∧ authorization sample_client = Some h
         ∧ authorization c = Some h.
Proof.
  apply (ApiClient_init_child_inherits "https://example.com/api" (Some "tok") None None
           None None 0 false sample_client "2.0" (Some "alice") None 0 false).
  - reflexivity.
  - right. reflexivity.
Defined.

Section Unthrottled.
Context `{PyRuntime} `{Network}.

(** X19. On a client that is not throttled ([throttle_seconds] at most 0),
    [api] never changes the client or the clock, whether the call sends a
    request, is refused or fails. *)
Theorem api_unthrottled_client_unchanged
    _http_method _endpoint_path _data _expected _return_type data st :
  ApiClient.throttle_seconds (this st) ≤ 0 →
  let out := api _http_method _endpoint_path _data _expected _return_type data st in
  this out.2 = this st ∧ clock out.2 = clock st.
Proof.
  intros Hle out. subst out.
  destruct (hostname_resolves (ApiClient.url (this st))) eqn:Hdns.
  - by destruct (api_time _http_method _endpoint_path _data _expected _return_type
                   data st Hdns) as [Hun _]; apply Hun.
  - rewrite api_run.
    destruct (prepare_payload (heap st) _data data) as [l h1]. simpl.
    by rewrite Hdns.
Qed.

End Unthrottled.

Lemma api_unthrottled_client_unchanged_witness :
  this (@api sample_runtime ok_network "GET" "clusters/list" None ExpNone RT_dict ∅
          sample_state).2 = sample_client
  ∧ clock (@api sample_runtime ok_network "GET" "clusters/list" None ExpNone RT_dict ∅
             sample_state).2 = 0.
Proof.
  apply (@api_unthrottled_client_unchanged sample_runtime ok_network "GET"
           "clusters/list" None ExpNone RT_dict ∅ sample_state).
  vm_compute. discriminate.
Defined.
